(** * ai-advent: request construction and error handling of the two scripts

    A shallow embedding of [day-01/main.py] and [day-02-fight-club/main.py].

    Python values are modelled by an inductive type, a [str] by the string
    of its UTF-8 bytes, the dictionary of keyword arguments by a finite
    map, printing and calls of the HTTP layer by a trace of events, and
    exceptions by an error result.  The file system and the network are
    not part of the scripts: they enter as fields of a "world" record that
    says what the corresponding library call returns or raises. *)

From Stdlib Require Import ZArith String Ascii List Bool Lia DecimalString.
From stdpp Require Import base option list gmap strings.
Import ListNotations.

#[local] Set Warnings "-register-all".
#[local] Open Scope Z_scope.

(** ** Python strings, values and exceptions *)

Module Py.

(** *** Strings

    A [str] is kept as its UTF-8 encoding, one [ascii] per byte, which is
    how the literals of the source files arrive here.  Concatenation,
    [join], equality and the substring test agree with those of the
    sequence of code points; [len] and indexing count code points. *)

(** The double quote character. *)
Definition dq : string := String (ascii_of_nat 34) EmptyString.

(** The line feed character. *)
Definition nl : string := String (ascii_of_nat 10) EmptyString.

(** [sep.join(l)] *)
Definition str_join (sep : string) (l : list string) : string :=
  String.concat sep l.

(** [s * n] *)
Fixpoint str_repeat (s : string) (n : nat) : string :=
  match n with
  | O => EmptyString
  | S n' => s +:+ str_repeat s n'
  end.

(** [str(z)] for an [int]: decimal digits, with a minus sign when
    negative. *)
Definition str_of_int (z : Z) : string :=
  NilZero.string_of_int (Z.to_int z).

(** [needle in hay] as a proposition. *)
Definition str_contains (hay needle : string) : Prop :=
  exists pre post : string, hay = pre +:+ needle +:+ post.

(** [needle in hay] as the test that Python runs. *)
Fixpoint str_containsb (hay needle : string) : bool :=
  String.prefix needle hay ||
  match hay with
  | EmptyString => false
  | String _ hay' => str_containsb hay' needle
  end.

(** A byte [10xxxxxx] continues a code point started earlier. *)
Definition is_continuation (c : ascii) : bool :=
  let n := nat_of_ascii c in (128 <=? n)%nat && (n <? 192)%nat.

(** The code points of a string, each as the string of its bytes. *)
Fixpoint str_chars_go (cur : option string) (s : string) : list string :=
  match s with
  | EmptyString => match cur with Some w => [w] | None => [] end
  | String c s' =>
      if is_continuation c then
        str_chars_go (Some (default EmptyString cur +:+ String c EmptyString)) s'
      else
        match cur with Some w => [w] | None => [] end
          ++ str_chars_go (Some (String c EmptyString)) s'
  end.

Definition str_chars (s : string) : list string := str_chars_go None s.

(** [len(s)] *)
Definition str_len (s : string) : nat := length (str_chars s).

Definition hex_digit (n : nat) : ascii :=
  if (n <? 10)%nat then ascii_of_nat (48 + n) else ascii_of_nat (87 + n).

Definition has_char (c : ascii) (s : string) : bool :=
  existsb (Ascii.eqb c) (list_ascii_of_string s).

(** One character of [repr(s)], as [unicode_repr] of CPython writes it.
    Bytes from 128 on belong to code points outside ASCII and are copied:
    this is what CPython does for printable code points (all letters,
    Cyrillic ones included); the escapes it writes for unprintable code
    points outside ASCII are not modelled. *)
Definition repr_char (quote : ascii) (c : ascii) : string :=
  let n := nat_of_ascii c in
  if Ascii.eqb c quote || Ascii.eqb c "\"%char then
    String "\"%char (String c EmptyString)
  else if (n =? 9)%nat then "\t"
  else if (n =? 10)%nat then "\n"
  else if (n =? 13)%nat then "\r"
  else if (n <? 32)%nat || (n =? 127)%nat then
    "\x" +:+ String (hex_digit (n / 16)) (String (hex_digit (n mod 16)) EmptyString)
  else String c EmptyString.

(** [repr(s)] for a [str]: single quotes, unless the string has a single
    quote and no double quote. *)
Definition repr_str (s : string) : string :=
  let quote : ascii :=
    if has_char "'"%char s && negb (has_char (ascii_of_nat 34) s)
    then ascii_of_nat 34 else "'"%char in
  String quote EmptyString
    +:+ String.concat EmptyString (map (repr_char quote) (list_ascii_of_string s))
    +:+ String quote EmptyString.

(** *** Values

    The values that a TOML file or a JSON body decodes to, which are also
    the values the scripts build.  A [float] is kept as its [repr], which
    determines it; a [dict] with [str] keys as the list of its items in
    insertion order, each key once (dates of TOML are left out). *)
Inductive pyval : Type :=
| PNone
| PBool (b : bool)
| PInt (z : Z)
| PFloat (repr : string)
| PStr (s : string)
| PList (l : list pyval)
| PDict (d : list (string * pyval)).

Definition pydict : Type := list (string * pyval).

(** [d.get(k)]: the value stored under [k], if any. *)
Fixpoint dict_get (k : string) (d : pydict) : option pyval :=
  match d with
  | [] => None
  | (k', v) :: d' => if String.eqb k k' then Some v else dict_get k d'
  end.

(** [bool(v)] *)
Definition truthy (v : pyval) : bool :=
  match v with
  | PNone => false
  | PBool b => b
  | PInt z => negb (z =? 0)
  | PFloat r => negb (String.eqb r "0.0" || String.eqb r "-0.0")
  | PStr s => negb (String.eqb s EmptyString)
  | PList l => match l with [] => false | _ => true end
  | PDict d => match d with [] => false | _ => true end
  end.

(** [type(v).__name__] *)
Definition type_name (v : pyval) : string :=
  match v with
  | PNone => "NoneType"
  | PBool _ => "bool"
  | PInt _ => "int"
  | PFloat _ => "float"
  | PStr _ => "str"
  | PList _ => "list"
  | PDict _ => "dict"
  end.

(** [repr(v)] *)
Fixpoint repr (v : pyval) : string :=
  match v with
  | PNone => "None"
  | PBool b => if b then "True" else "False"
  | PInt z => str_of_int z
  | PFloat r => r
  | PStr s => repr_str s
  | PList l => "[" +:+ str_join ", " (map repr l) +:+ "]"
  | PDict d =>
      "{" +:+ str_join ", " (map (fun '(k, v) => repr_str k +:+ ": " +:+ repr v) d)
          +:+ "}"
  end.

(** [str(v)], which is also what [{v}] inserts in an f-string. *)
Definition str (v : pyval) : string :=
  match v with
  | PStr s => s
  | _ => repr v
  end.

(** [v == s] for a [str] literal [s]. *)
Definition eq_str (v : pyval) (s : string) : bool :=
  match v with
  | PStr s' => String.eqb s' s
  | _ => false
  end.

(** *** Exceptions

    Instances of [Exception], by the classes the scripts tell apart.
    [exc_msg] is [str(e)]. *)
Inductive exc_class : Type :=
| FileNotFoundError
| RequestException        (* requests.exceptions.RequestException and subclasses *)
| RequestsJSONDecodeError (* requests.exceptions.JSONDecodeError: a subclass of
                             RequestException and of json.JSONDecodeError *)
| JSONDecodeError         (* json.JSONDecodeError *)
| KeyError
| IndexError
| TypeError
| ValueError
| OtherError.

Record exception : Type := Exc { exc_cls : exc_class; exc_msg : string }.

(** [isinstance(e, requests.exceptions.RequestException)] *)
Definition is_RequestException (e : exception) : bool :=
  match exc_cls e with
  | RequestException | RequestsJSONDecodeError => true
  | _ => false
  end.

(** [isinstance(e, json.JSONDecodeError)] *)
Definition is_JSONDecodeError (e : exception) : bool :=
  match exc_cls e with
  | JSONDecodeError | RequestsJSONDecodeError => true
  | _ => false
  end.

(** [isinstance(e, FileNotFoundError)] *)
Definition is_FileNotFoundError (e : exception) : bool :=
  match exc_cls e with
  | FileNotFoundError => true
  | _ => false
  end.

(** *** Effects

    What a run does to the outside: the lines it prints and the calls it
    makes to the HTTP layer, in order.  [Print s] is [print(s)]. *)
Inductive event : Type :=
| Print (text : string)
| HttpPost (url : string) (headers json timeout : pyval)
| Create (kwargs : gmap string pyval).

(** A computation extends the trace of events and returns a value or
    raises an exception. *)
Definition M (A : Type) : Type :=
  list event -> list event * (exception + A).

#[export] Instance M_ret : MRet M :=
  fun A (x : A) tr => (tr, inr x).

#[export] Instance M_bind : MBind M :=
  fun A B (f : A -> M B) (c : M A) tr =>
    match c tr with
    | (tr', inl e) => (tr', inl e)
    | (tr', inr x) => f x tr'
    end.

Definition raise {A : Type} (e : exception) : M A :=
  fun tr => (tr, inl e).

Definition emit (ev : event) : M unit :=
  fun tr => (tr ++ [ev], inr tt).

Definition print (s : string) : M unit := emit (Print s).

(** The [except] clauses of a [try], tried in order; an exception that
    none of them matches goes on to the caller. *)
Fixpoint dispatch {A : Type}
    (clauses : list ((exception -> bool) * (exception -> M A)))
    (e : exception) : M A :=
  match clauses with
  | [] => raise e
  | (matches, handler) :: rest =>
      if matches e then handler e else dispatch rest e
  end.

(** [try: body except C1 as e: h1 except C2 as e: h2 ...] *)
Definition try_except {A : Type} (body : M A)
    (clauses : list ((exception -> bool) * (exception -> M A))) : M A :=
  fun tr =>
    match body tr with
    | (tr', inl e) => dispatch clauses e tr'
    | (tr', inr x) => (tr', inr x)
    end.

(** [except Exception]: every exception of the model is an instance. *)
Definition is_Exception (e : exception) : bool := true.

(** [for x in l: body x] *)
Fixpoint for_each {A : Type} (l : list A) (body : A -> M unit) : M unit :=
  match l with
  | [] => mret tt
  | x :: l' => body x ;; for_each l' body
  end.

(** The run of a whole program: it starts with nothing printed. *)
Definition run {A : Type} (c : M A) : list event * (exception + A) := c [].

(** *** Operations on values that can raise *)

(** [o[k]] for a [str] key. *)
Definition getitem_str (o : pyval) (k : string) : M pyval :=
  match o with
  | PDict d =>
      match dict_get k d with
      | Some v => mret v
      | None => raise (Exc KeyError (repr_str k))
      end
  | PList _ =>
      raise (Exc TypeError "list indices must be integers or slices, not str")
  | PStr _ =>
      raise (Exc TypeError "string indices must be integers, not 'str'")
  | _ => raise (Exc TypeError ("'" +:+ type_name o +:+ "' object is not subscriptable"))
  end.

(** The element at index [i] of a sequence, a negative index counting
    from the end. *)
Definition seq_index {A : Type} (l : list A) (i : Z) : option A :=
  let n := Z.of_nat (length l) in
  let j := if i <? 0 then i + n else i in
  if (0 <=? j) && (j <? n) then l !! Z.to_nat j else None.

(** [o[i]] for an [int] index. *)
Definition getitem_int (o : pyval) (i : Z) : M pyval :=
  match o with
  | PDict _ => raise (Exc KeyError (str_of_int i))
  | PList l =>
      match seq_index l i with
      | Some v => mret v
      | None => raise (Exc IndexError "list index out of range")
      end
  | PStr s =>
      match seq_index (str_chars s) i with
      | Some c => mret (PStr c)
      | None => raise (Exc IndexError "string index out of range")
      end
  | _ => raise (Exc TypeError ("'" +:+ type_name o +:+ "' object is not subscriptable"))
  end.

(** [k in o] for a [str] [k]. *)
Definition contains_str (k : string) (o : pyval) : M bool :=
  match o with
  | PDict d => mret (bool_decide (is_Some (dict_get k d)))
  | PList l => mret (existsb (fun v => eq_str v k) l)
  | PStr s => mret (str_containsb s k)
  | _ => raise (Exc TypeError ("argument of type '" +:+ type_name o +:+ "' is not iterable"))
  end.

(** [len(o)] *)
Definition len (o : pyval) : M Z :=
  match o with
  | PDict d => mret (Z.of_nat (length d))
  | PList l => mret (Z.of_nat (length l))
  | PStr s => mret (Z.of_nat (str_len s))
  | _ => raise (Exc TypeError ("object of type '" +:+ type_name o +:+ "' has no len()"))
  end.

End Py.

(** ** Script 1: [day-01/main.py] *)

Module Day01.
Import Py.

(** A [requests.Response], as far as the script looks at it: the status
    line, which decides [raise_for_status], and what [json()] returns or
    raises. *)
Record Response : Type := {
  status_code : Z;
  reason : string;
  url : string;
  json : exception + pyval
}.

(** What the script finds outside: the result of opening and parsing
    [settings.toml], and the result of [requests.post] for a given
    request. *)
Record world : Type := {
  settings_toml : exception + pydict;
  requests_post : string -> pyval -> pyval -> pyval -> exception + Response
}.

(** [with open('settings.toml', ...) as f: return toml.load(f)] *)
Definition open_and_load (w : world) : M pyval :=
  match settings_toml w with
  | inl e => raise e
  | inr d => mret (PDict d)
  end.

(** [requests.post(url, headers=headers, json=payload, timeout=timeout)] *)
Definition post (w : world) (url : string) (headers payload timeout : pyval)
    : M Response :=
  emit (HttpPost url headers payload timeout) ;;
  match requests_post w url headers payload timeout with
  | inl e => raise e
  | inr r => mret r
  end.

(** [response.raise_for_status()]: an [HTTPError], which is a
    [RequestException], for a 4xx or 5xx status. *)
Definition raise_for_status (r : Response) : M unit :=
  let http_error_msg :=
    if (400 <=? status_code r) && (status_code r <? 500) then
      str_of_int (status_code r) +:+ " Client Error: " +:+ reason r
        +:+ " for url: " +:+ url r
    else if (500 <=? status_code r) && (status_code r <? 600) then
      str_of_int (status_code r) +:+ " Server Error: " +:+ reason r
        +:+ " for url: " +:+ url r
    else EmptyString in
  if truthy (PStr http_error_msg)
  then raise (Exc RequestException http_error_msg)
  else mret tt.

(** [response.json()] *)
Definition response_json (r : Response) : M pyval :=
  match json r with
  | inl e => raise e
  | inr v => mret v
  end.

Definition load_settings (w : world) : M pyval :=
  try_except (open_and_load w)
    [ (is_FileNotFoundError,
       fun _ => print "Ошибка: файл settings.toml не найден" ;; mret PNone);
      (is_Exception,
       fun e => print ("Ошибка чтения конфигурационного файла: " +:+ exc_msg e) ;;
                mret PNone) ].

Definition system_prompt : string :=
  "Ты художник ASCII-графики. Твоя задача создавать красивые, детальные и выразительные ASCII-изображения. "
    +:+ nl +:+ "Используй различные символы для создания теней, текстур и деталей. "
    +:+ nl +:+ "Максимизируй использование доступного пространства для создания максимально подробного и эстетичного изображения.".

Definition user_prompt : string :=
  "Нарисуй максимально красивый и подробный ASCII графикой котика, который говорит " +:+ dq +:+ "Привет, Мир!" +:+ dq +:+ ". "
    +:+ nl +:+ "Сделай его милым, детализированным и выразительным. Используй разнообразные символы для создания текстуры шерсти, глаз, усов и других деталей.".

Definition create_llm_request : pyval :=
  PDict [ ("system_prompt", PStr system_prompt);
          ("user_prompt", PStr user_prompt) ].

(** Lines 34 to 37 of [send_request]: the headers, from the value of
    [settings['api_key']]. *)
Definition request_headers (api_key : pyval) : pyval :=
  PDict [ ("Authorization", PStr ("Bearer " +:+ str api_key));
          ("Content-Type", PStr "application/json") ].

(** Lines 39 to 47 of [send_request]: the payload, from the values
    looked up in [settings] and [prompt_data]. *)
Definition request_payload (model system_content user_content max_tokens : pyval)
    : pyval :=
  PDict [ ("model", model);
          ("messages",
           PList [ PDict [("role", PStr "system"); ("content", system_content)];
                   PDict [("role", PStr "user"); ("content", user_content)] ]);
          ("max_tokens", max_tokens);
          ("temperature", PFloat "0.7") ].

Definition send_request (w : world) (settings prompt_data : pyval) : M pyval :=
  api_key ← getitem_str settings "api_key";
  let headers := request_headers api_key in
  model ← getitem_str settings "model";
  system_content ← getitem_str prompt_data "system_prompt";
  user_content ← getitem_str prompt_data "user_prompt";
  max_tokens ← getitem_str settings "max_tokens";
  let payload := request_payload model system_content user_content max_tokens in
  try_except
    (base_url ← getitem_str settings "base_url";
     timeout ← getitem_str settings "timeout";
     response ← post w (str base_url +:+ "/chat/completions") headers payload timeout;
     raise_for_status response ;;
     response_json response)
    [ (is_RequestException,
       fun e => print ("Ошибка запроса к API: " +:+ exc_msg e) ;; mret PNone);
      (is_JSONDecodeError,
       fun e => print ("Ошибка парсинга JSON ответа: " +:+ exc_msg e) ;; mret PNone) ].

Definition placeholder_api_key : string := "your-api-key-here".

(** Lines 86 to 98 of [main]: what is printed for the value that
    [send_request] returned. *)
Definition report (result : pyval) : M unit :=
  if truthy result then
    has_choices ← contains_str "choices" result;
    nonempty ←
      (if has_choices : bool then
         choices ← getitem_str result "choices";
         n ← len choices;
         mret (0 <? n)
       else mret false);
    if nonempty : bool then
      choices ← getitem_str result "choices";
      first ← getitem_int choices 0;
      message ← getitem_str first "message";
      content ← getitem_str message "content";
      print (nl +:+ str_repeat "=" 60) ;;
      print "Ваш ASCII котик:" ;;
      print (str_repeat "=" 60) ;;
      print (str content) ;;
      print (str_repeat "=" 60)
    else
      print "Ошибка: Не удалось получить ответ от модели"
  else
    print "Не удалось получить ответ от модели".

Definition main (w : world) : M unit :=
  print "Запуск приложения для генерации ASCII котика..." ;;
  settings ← load_settings w;
  if negb (truthy settings) then mret tt else
  api_key ← getitem_str settings "api_key";
  if eq_str api_key placeholder_api_key then
    print "Внимание: В файле settings.toml не указан API ключ. Пожалуйста, укажите ваш API ключ."
  else
  let prompt_data := create_llm_request in
  print "Отправка запроса к LLM модели..." ;;
  result ← send_request w settings prompt_data;
  report result.

End Day01.

(** ** Script 2: [day-02-fight-club/main.py] *)

Module Day02.
Import Py.

(** [itertools.product] with [repeat=n], after the equivalent code
    in the documentation of the standard library: the pools are the
    iterables repeated [n] times, and every pool in turn extends each
    partial tuple by each of its elements.  A tuple is a list here. *)
Definition product {A : Type} (iterables : list (list A)) (n : nat)
    : list (list A) :=
  let pools := concat (replicate n iterables) in
  fold_left
    (fun result pool => flat_map (fun x => map (fun y => x ++ [y]) pool) result)
    pools [[]].

(** [enumerate(l, start)] *)
Fixpoint enumerate {A : Type} (l : list A) (start : Z) : list (Z * A) :=
  match l with
  | [] => []
  | x :: l' => (start, x) :: enumerate l' (start + 1)
  end.

(** The values read from [config.ini] when the module is loaded. *)
Record Config : Type := {
  PROMPT_TEMPLATE : string;
  RESPONSE_FORMAT : string;
  MAX_TOKENS : Z;
  STOP_SEQUENCE : string;
  MODEL : string
}.

(** The result object of the OpenAI client, as far as the script reads
    it. *)
Record ChatCompletionMessage : Type := { content : option string }.
Record Choice : Type := { message : ChatCompletionMessage }.
Record ChatCompletion : Type := { choices : list Choice }.

(** What [client.chat.completions.create], called with the keyword
    arguments, returns or raises,
    given everything that happened before the call. *)
Record world : Type := {
  chat_completions_create :
    list event -> gmap string pyval -> exception + ChatCompletion
}.

Definition create (w : world) (kwargs : gmap string pyval) : M ChatCompletion :=
  fun tr =>
    (tr ++ [Create kwargs],
     match chat_completions_create w tr kwargs with
     | inl e => inl e
     | inr r => inr r
     end).

Section WithConfig.
Context (cfg : Config).

(** The three instructions of [build_system_prompt] (lines 30, 32
    and 34). *)
Definition format_instruction : string :=
  "Ответ должен быть в формате " +:+ RESPONSE_FORMAT cfg +:+ ".".

Definition max_tokens_instruction : string :=
  "Ответ не должен превышать " +:+ str_of_int (MAX_TOKENS cfg) +:+ " токенов.".

Definition stop_instruction : string :=
  "Заверши ответ перед последовательностью: " +:+ repr_str (STOP_SEQUENCE cfg).

Definition build_system_prompt (use_format use_max_tokens use_stop : bool)
    : string :=
  let instructions : list string := [] in
  let instructions :=
    if use_format then instructions ++ [format_instruction] else instructions in
  let instructions :=
    if use_max_tokens then instructions ++ [max_tokens_instruction]
    else instructions in
  let instructions :=
    if use_stop then instructions ++ [stop_instruction] else instructions in
  if truthy (PList (map PStr instructions))
  then str_join " " instructions
  else EmptyString.

(** Lines 41 to 46 of [send_request]: the message list. *)
Definition request_messages (use_format use_max_tokens use_stop : bool)
    : list pyval :=
  let system_instruction :=
    build_system_prompt use_format use_max_tokens use_stop in
  let messages : list pyval := [] in
  let messages :=
    if truthy (PStr system_instruction)
    then messages ++ [PDict [("role", PStr "system");
                             ("content", PStr system_instruction)]]
    else messages in
  messages ++ [PDict [("role", PStr "user");
                      ("content", PStr (PROMPT_TEMPLATE cfg))]].

(** Lines 48 to 58 of [send_request]: the keyword arguments of the
    call. *)
Definition request_kwargs (use_format use_max_tokens use_stop : bool)
    : gmap string pyval :=
  let kwargs : gmap string pyval :=
    <["messages" := PList (request_messages use_format use_max_tokens use_stop)]>
      (<["model" := PStr (MODEL cfg)]> ∅) in
  let kwargs :=
    if use_max_tokens then <["max_tokens" := PInt (MAX_TOKENS cfg)]> kwargs
    else kwargs in
  let kwargs :=
    if use_stop then <["stop" := PStr (STOP_SEQUENCE cfg)]> kwargs
    else kwargs in
  let kwargs :=
    if use_format && String.eqb (RESPONSE_FORMAT cfg) "json"
    then <["response_format" := PDict [("type", PStr "json_object")]]> kwargs
    else kwargs in
  kwargs.

Definition send_request (w : world) (use_format use_max_tokens use_stop : bool)
    : M pyval :=
  response ← create w (request_kwargs use_format use_max_tokens use_stop);
  match seq_index (choices response) 0 with
  | None => raise (Exc IndexError "list index out of range")
  | Some choice =>
      mret (match content (message choice) with
            | Some text => PStr text
            | None => PNone
            end)
  end.

(** The body of the loop of [main] (lines 74 to 89) for trial [i]. *)
Definition trial (w : world) (i : Z) (use_format use_max_tokens use_stop : bool)
    : M unit :=
  let params : list string := [] in
  let params :=
    if use_format then params ++ ["формат=" +:+ RESPONSE_FORMAT cfg]
    else params in
  let params :=
    if use_max_tokens then params ++ ["max_tokens=" +:+ str_of_int (MAX_TOKENS cfg)]
    else params in
  let params :=
    if use_stop then params ++ ["stop=" +:+ repr_str (STOP_SEQUENCE cfg)]
    else params in
  let params_str :=
    if truthy (PList (map PStr params)) then str_join ", " params
    else "без параметров" in
  print ("--- Вариант " +:+ str_of_int i +:+ ": " +:+ params_str +:+ " ---") ;;
  try_except
    (answer ← send_request w use_format use_max_tokens use_stop;
     print ("Ответ:" +:+ nl +:+ str answer +:+ nl))
    [ (is_Exception, fun e => print ("Ошибка: " +:+ exc_msg e +:+ nl)) ].

(** The flag tuples that the loop of [main] runs over (line 73). *)
Definition combinations : list (list bool) := product [[false; true]] 3.

(** One round of the loop of [main]: the tuple is unpacked into the
    three flags (line 73) and the body runs. *)
Definition iteration (w : world) (item : Z * list bool) : M unit :=
  let '(i, flags) := item in
  match flags with
  | [use_format; use_max_tokens; use_stop] =>
      trial w i use_format use_max_tokens use_stop
  | _ :: _ :: _ :: _ :: _ =>
      raise (Exc ValueError "too many values to unpack (expected 3)")
  | _ =>
      raise (Exc ValueError
               ("not enough values to unpack (expected 3, got "
                  +:+ str_of_int (Z.of_nat (length flags)) +:+ ")"))
  end.

Definition main (w : world) : M unit :=
  print (str_repeat "=" 60) ;;
  print "Перебор всех комбинаций опциональных параметров" ;;
  print (str_repeat "=" 60) ;;
  print ("Запрос: " +:+ PROMPT_TEMPLATE cfg +:+ nl) ;;
  let param_names := ["формат"; "max_tokens"; "stop"] in
  for_each (enumerate combinations 1) (iteration w).

End WithConfig.

End Day02.

(** ** Notions used to state the properties *)

Module Spec.
Import Py.

(** The number that a tuple of flags spells in binary, first flag most
    significant. *)
Definition bits_value (t : list bool) : Z :=
  fold_left (fun acc (b : bool) => 2 * acc + (if b then 1 else 0)) t 0.

(** The instructions of the flags that are set, in the order format,
    max-tokens, stop. *)
Definition enabled_instructions (cfg : Day02.Config)
    (use_format use_max_tokens use_stop : bool) : list string :=
  (if use_format then [Day02.format_instruction cfg] else [])
    ++ (if use_max_tokens then [Day02.max_tokens_instruction cfg] else [])
    ++ (if use_stop then [Day02.stop_instruction cfg] else []).

(** The directive that asks the endpoint for a JSON object. *)
Definition json_object : pyval := PDict [("type", PStr "json_object")].

Definition system_message (text : string) : pyval :=
  PDict [("role", PStr "system"); ("content", PStr text)].

Definition user_message (text : string) : pyval :=
  PDict [("role", PStr "user"); ("content", PStr text)].

(** The keyword arguments of the calls of the OpenAI client in a trace,
    in order. *)
Definition create_calls (tr : list event) : list (gmap string pyval) :=
  flat_map (fun ev => match ev with Create kwargs => [kwargs] | _ => [] end) tr.

(** The requests posted in a trace, in order. *)
Definition http_posts (tr : list event) : list (string * pyval * pyval * pyval) :=
  flat_map
    (fun ev => match ev with HttpPost u h j t => [(u, h, j, t)] | _ => [] end) tr.

(** A numbered flag triple as the item that the loop of script 2
    receives. *)
Definition numbered_tuple (t : Z * (bool * bool * bool)) : Z * list bool :=
  let '(i, (f, m, s)) := t in (i, [f; m; s]).

(** The lines printed in a trace, in order. *)
Definition printed (tr : list event) : list string :=
  flat_map (fun ev => match ev with Print s => [s] | _ => [] end) tr.

(** What the transport gives [send_request] of script 1 inside its [try]:
    the exception raised by [requests.post], by [raise_for_status] or by
    [json()], or the decoded body. *)
Definition transport_result (o : exception + Day01.Response) : exception + pyval :=
  match o with
  | inl e => inl e
  | inr r => snd (run (Day01.raise_for_status r ;; Day01.response_json r))
  end.

(** No exception gets out of [main] of script 1. *)
Definition no_exception_escapes (w : Day01.world) : Prop :=
  exists tr : list event, run (Day01.main w) = (tr, inr tt).

(** The two lines that script 1 prints when all goes well up to the
    request. *)
Definition banner : string := "Запуск приложения для генерации ASCII котика...".
Definition sending : string := "Отправка запроса к LLM модели...".

End Spec.

(** ** Sample configurations and transports for script 1 *)

Module Examples.
Import Py Day01.

Definition sample_settings (api_key : pyval) : pydict :=
  [ ("api_key", api_key); ("base_url", PStr "https://api.example.com/v1");
    ("model", PStr "gpt-4o-mini"); ("max_tokens", PInt 1000); ("timeout", PInt 30) ].

Definition ok_response (body : exception + pyval) : Response :=
  {| status_code := 200; reason := "OK";
     url := "https://api.example.com/v1/chat/completions"; json := body |}.

Definition missing_key_world : world :=
  {| settings_toml := inr [ ("base_url", PStr "https://api.example.com/v1");
                            ("model", PStr "gpt-4o-mini"); ("max_tokens", PInt 1000);
                            ("timeout", PInt 30) ];
     requests_post := fun _ _ _ _ => inr (ok_response (inr (PDict []))) |}.

Definition placeholder_world : world :=
  {| settings_toml := inr (sample_settings (PStr "your-api-key-here"));
     requests_post := fun _ _ _ _ => inr (ok_response (inr (PDict []))) |}.

Definition missing_file_world : world :=
  {| settings_toml :=
       inl (Exc FileNotFoundError
              "[Errno 2] No such file or directory: 'settings.toml'");
     requests_post := fun _ _ _ _ => inr (ok_response (inr (PDict []))) |}.

Definition timeout_world : world :=
  {| settings_toml := inr (sample_settings (PStr "sk-test"));
     requests_post := fun _ _ _ _ => inl (Exc RequestException "Read timed out.") |}.

Definition empty_choices_world : world :=
  {| settings_toml := inr (sample_settings (PStr "sk-test"));
     requests_post := fun _ _ _ _ =>
       inr (ok_response (inr (PDict [("choices", PList [])]))) |}.

Definition legacy_body_world : world :=
  {| settings_toml := inr (sample_settings (PStr "sk-test"));
     requests_post := fun _ _ _ _ =>
       inr (ok_response
              (inr (PDict [("choices", PList [PDict [("text", PStr "meow")]])]))) |}.

Definition cat_world : world :=
  {| settings_toml := inr (sample_settings (PStr "sk-test"));
     requests_post := fun _ _ _ _ =>
       inr (ok_response
              (inr (PDict [("choices",
                            PList [PDict [("message",
                                           PDict [("role", PStr "assistant");
                                                  ("content", PStr "=^.^=")])]])]))) |}.

End Examples.

(** ** Further notions and samples *)

Module Text.
Import Py.

(** A character that [repr] of a [str] copies as it is between single
    quotes: a printable ASCII character (codes 32 to 126) that is neither
    a single quote nor a backslash.  Characters outside ASCII are left
    out: whether [repr] copies or escapes them depends on the code
    point. *)
Definition plain_char (c : ascii) : bool :=
  let n := nat_of_ascii c in
  (32 <=? n)%nat && (n <? 127)%nat
    && negb (Ascii.eqb c "'"%char) && negb (Ascii.eqb c "\"%char).

Definition plain (s : string) : bool :=
  forallb plain_char (list_ascii_of_string s).

End Text.

Module MoreExamples.
Import Py Day01 Examples.

Definition empty_settings_world : world :=
  {| settings_toml := inr [];
     requests_post := fun _ _ _ _ => inr (ok_response (inr (PDict []))) |}.

Definition no_timeout_world : world :=
  {| settings_toml :=
       inr [ ("api_key", PStr "sk-test"); ("base_url", PStr "https://api.example.com/v1");
             ("model", PStr "gpt-4o-mini"); ("max_tokens", PInt 1000) ];
     requests_post := fun _ _ _ _ => inr (ok_response (inr (PDict []))) |}.

Definition broken_transport_world : world :=
  {| settings_toml := inr (sample_settings (PStr "sk-test"));
     requests_post := fun _ _ _ _ =>
       inl (Exc TypeError "Object of type datetime is not JSON serializable") |}.

Definition html_body_world : world :=
  {| settings_toml := inr (sample_settings (PStr "sk-test"));
     requests_post := fun _ _ _ _ =>
       inr (ok_response
              (inl (Exc RequestsJSONDecodeError
                      "Expecting value: line 1 column 1 (char 0)"))) |}.

End MoreExamples.

(** ** Properties of script 2 *)

Section Strings.
Import Py.

Lemma append_cons (ch : ascii) (a b : string) :
  String ch a +:+ b = String ch (a +:+ b).
Proof. reflexivity. Qed.

Lemma append_assoc (a b c : string) : (a +:+ b) +:+ c = a +:+ (b +:+ c).
Proof.
  induction a as [|ch a IH]; [reflexivity|].
  now rewrite !append_cons, IH.
Qed.

Lemma append_empty_r (a : string) : a +:+ EmptyString = a.
Proof.
  induction a as [|ch a IH]; [reflexivity|].
  now rewrite append_cons, IH.
Qed.

Lemma str_contains_middle (pre s post : string) :
  str_contains (pre +:+ s +:+ post) s.
Proof. now exists pre, post. Qed.

Lemma str_contains_append (hay s rest : string) :
  str_contains hay s -> str_contains (hay +:+ rest) s.
Proof.
  intros (pre & post & ->). exists pre, (post +:+ rest).
  now rewrite !append_assoc.
Qed.

End Strings.

Section BuildSystemPrompt.
Import Py Day02 Spec.

(** C1. The loop of [main] in script 2 runs over the eight flag tuples
    in the order of a 3-bit binary counter, [use_format] being the most
    significant bit: the tuples are exactly (F,F,F), (F,F,T), (F,T,F),
    (F,T,T), (T,F,F), (T,F,T), (T,T,F), (T,T,T); none occurs twice, every
    triple of booleans occurs, the k-th tuple spells k in binary, and the
    trials are numbered from 1 to 8. *)
Theorem combinations_binary_counter :
  combinations =
    [ [false; false; false]; [false; false; true];
      [false; true; false];  [false; true; true];
      [true; false; false];  [true; false; true];
      [true; true; false];   [true; true; true] ]
  /\ NoDup combinations
  /\ (forall a b c : bool, [a; b; c] ∈ combinations)
  /\ map bits_value combinations = [0; 1; 2; 3; 4; 5; 6; 7]
  /\ map fst (enumerate combinations 1) = [1; 2; 3; 4; 5; 6; 7; 8].
Proof.
  assert (Hc : combinations =
    [ [false; false; false]; [false; false; true];
      [false; true; false];  [false; true; true];
      [true; false; false];  [true; false; true];
      [true; true; false];   [true; true; true] ]) by reflexivity.
  split; [exact Hc|]. rewrite Hc. split; [|split; [|split]].
  - compute_done.
  - intros [] [] []; rewrite !elem_of_cons; tauto.
  - reflexivity.
  - reflexivity.
Qed.

(** C2. With prompt_template "ping", response_format "json", max_tokens 5
    and stop_sequence "STOP", and whatever the model name, the system
    instruction built for the flags (True, True, True) is the text
    below, it is the content of the system message of the request, and
    the keyword arguments of the request hold max_tokens = 5,
    stop = "STOP" and response_format = the JSON-object directive. *)
Theorem scenario_all_flags (model : string) :
  let cfg := {| PROMPT_TEMPLATE := "ping"; RESPONSE_FORMAT := "json";
                MAX_TOKENS := 5; STOP_SEQUENCE := "STOP"; MODEL := model |} in
  let text := "Ответ должен быть в формате json. Ответ не должен превышать 5 токенов. Заверши ответ перед последовательностью: 'STOP'" in
  build_system_prompt cfg true true true = text
  /\ request_kwargs cfg true true true !! "messages"
       = Some (PList [system_message text; user_message "ping"])
  /\ request_kwargs cfg true true true !! "max_tokens" = Some (PInt 5)
  /\ request_kwargs cfg true true true !! "stop" = Some (PStr "STOP")
  /\ request_kwargs cfg true true true !! "response_format" = Some json_object
  /\ forall (w : world) (tr : list event),
       fst (send_request cfg w true true true tr)
         = tr ++ [Create (request_kwargs cfg true true true)].
Proof.
  cbv zeta. repeat split; try (vm_compute; reflexivity).
  intros w tr. unfold send_request, create, mbind, M_bind.
  now destruct (chat_completions_create w tr _) as [e|r];
    [|destruct (seq_index (choices r) 0)].
Qed.

Variable cfg : Config.

Lemma build_system_prompt_enabled (use_format use_max_tokens use_stop : bool) :
  build_system_prompt cfg use_format use_max_tokens use_stop
    = str_join " " (enabled_instructions cfg use_format use_max_tokens use_stop).
Proof. now destruct use_format, use_max_tokens, use_stop. Qed.

Lemma build_system_prompt_format (use_max_tokens use_stop : bool) :
  exists rest : string,
    build_system_prompt cfg true use_max_tokens use_stop
      = format_instruction cfg +:+ rest.
Proof.
  destruct use_max_tokens, use_stop; cbn;
    [eexists; reflexivity | eexists; reflexivity | eexists; reflexivity |].
  exists EmptyString. now rewrite append_empty_r.
Qed.

Lemma format_instruction_names_format :
  str_contains (format_instruction cfg) (RESPONSE_FORMAT cfg).
Proof. apply str_contains_middle. Qed.

Lemma build_system_prompt_format_truthy (use_max_tokens use_stop : bool) :
  truthy (PStr (build_system_prompt cfg true use_max_tokens use_stop)) = true.
Proof.
  destruct (build_system_prompt_format use_max_tokens use_stop) as [rest ->].
  reflexivity.
Qed.

End BuildSystemPrompt.

Section RequestConstruction.
Import Py Day02 Spec.

(** C3. For every flag tuple, [build_system_prompt] returns the
    instructions of the flags that are set, in the order format,
    max-tokens, stop, joined by single spaces.  With no flag set it
    returns the empty string.  With only [use_format] set it returns the
    format instruction alone: the sentence that names the configured
    response format, with nothing of the token or stop instructions, so
    that the result is the same under any configured token limit and
    stop sequence. *)
Theorem build_system_prompt_joins_enabled (cfg : Config) :
  (forall use_format use_max_tokens use_stop : bool,
     build_system_prompt cfg use_format use_max_tokens use_stop
       = str_join " " (enabled_instructions cfg use_format use_max_tokens use_stop))
  /\ build_system_prompt cfg false false false = EmptyString
  /\ build_system_prompt cfg true false false
       = "Ответ должен быть в формате " +:+ RESPONSE_FORMAT cfg +:+ "."
  /\ enabled_instructions cfg true false false = [format_instruction cfg]
  /\ str_contains (build_system_prompt cfg true false false) (RESPONSE_FORMAT cfg)
  /\ (forall (max_tokens' : Z) (stop_sequence' : string),
        build_system_prompt
          {| PROMPT_TEMPLATE := PROMPT_TEMPLATE cfg;
             RESPONSE_FORMAT := RESPONSE_FORMAT cfg;
             MAX_TOKENS := max_tokens';
             STOP_SEQUENCE := stop_sequence';
             MODEL := MODEL cfg |} true false false
        = build_system_prompt cfg true false false).
Proof.
  split; [apply build_system_prompt_enabled|].
  repeat split.
  apply format_instruction_names_format.
Qed.

(** C4. With [use_format] set, whatever the other two flags: the keyword
    arguments hold [response_format], the JSON-object directive, exactly
    when the configured format is the string "json", and hold no
    [response_format] for any other configured format; in both cases the
    system message is present and its text names the configured
    format. *)
Theorem response_format_only_for_json
    (cfg : Config) (use_max_tokens use_stop : bool) :
  let kwargs := request_kwargs cfg true use_max_tokens use_stop in
  kwargs !! "response_format"
    = (if String.eqb (RESPONSE_FORMAT cfg) "json" then Some json_object else None)
  /\ (kwargs !! "response_format" = Some json_object <-> RESPONSE_FORMAT cfg = "json")
  /\ (kwargs !! "response_format" = None <-> RESPONSE_FORMAT cfg <> "json")
  /\ head (request_messages cfg true use_max_tokens use_stop)
       = Some (system_message (build_system_prompt cfg true use_max_tokens use_stop))
  /\ str_contains (build_system_prompt cfg true use_max_tokens use_stop)
       (RESPONSE_FORMAT cfg).
Proof.
  cbv zeta.
  assert (Hk : request_kwargs cfg true use_max_tokens use_stop !! "response_format"
               = (if String.eqb (RESPONSE_FORMAT cfg) "json"
                  then Some json_object else None)).
  { unfold request_kwargs. rewrite andb_true_l.
    destruct (String.eqb (RESPONSE_FORMAT cfg) "json");
      destruct use_max_tokens, use_stop; reflexivity. }
  rewrite Hk. split; [reflexivity|].
  destruct (String.eqb_spec (RESPONSE_FORMAT cfg) "json") as [Heq|Hne].
  - split; [tauto|]. split; [split; [discriminate | tauto]|]. split.
    + unfold request_messages.
      now rewrite build_system_prompt_format_truthy.
    + destruct (build_system_prompt_format cfg use_max_tokens use_stop) as [rest ->].
      apply str_contains_append, format_instruction_names_format.
  - split; [split; [discriminate | tauto]|]. split; [tauto|]. split.
    + unfold request_messages.
      now rewrite build_system_prompt_format_truthy.
    + destruct (build_system_prompt_format cfg use_max_tokens use_stop) as [rest ->].
      apply str_contains_append, format_instruction_names_format.
Qed.

(** C5. For every flag tuple, each optional keyword argument of the
    request is there only when its flag is set: [stop] is present
    exactly when [use_stop] is set (so with [use_stop] unset there is no
    [stop], whatever the other flags), [max_tokens] is present exactly
    when [use_max_tokens] is set, and [response_format] is present only
    when [use_format] is set.  No other optional argument is ever there:
    the keys are among model, messages, max_tokens, stop and
    response_format. *)
Theorem optional_fields_follow_flags
    (cfg : Config) (use_format use_max_tokens use_stop : bool) :
  let kwargs := request_kwargs cfg use_format use_max_tokens use_stop in
  kwargs !! "stop"
    = (if use_stop then Some (PStr (STOP_SEQUENCE cfg)) else None)
  /\ request_kwargs cfg use_format use_max_tokens false !! "stop" = None
  /\ kwargs !! "max_tokens"
    = (if use_max_tokens then Some (PInt (MAX_TOKENS cfg)) else None)
  /\ (is_Some (kwargs !! "response_format") -> use_format = true)
  /\ request_kwargs cfg false use_max_tokens use_stop !! "response_format" = None
  /\ dom kwargs ⊆ {["model"; "messages"; "max_tokens"; "stop"; "response_format"]}.
Proof.
  cbv zeta. unfold request_kwargs.
  destruct use_format, use_max_tokens, use_stop;
    destruct (String.eqb (RESPONSE_FORMAT cfg) "json"); cbn [andb];
    (repeat apply conj;
     [reflexivity | reflexivity | reflexivity
     | (reflexivity || (intros [v Hv]; vm_compute in Hv; discriminate))
     | reflexivity
     | compute_done ]).
Qed.

(** C6. For every flag tuple, the message list of the request ends with
    the user message, whose content is the configured prompt text, the
    same for all flags; the list holds at most one message before it, a
    system message; and with all three flags unset the list is the user
    message alone.  This list is what the request carries under
    [messages]. *)
Theorem user_message_is_prompt
    (cfg : Config) (use_format use_max_tokens use_stop : bool) :
  let messages := request_messages cfg use_format use_max_tokens use_stop in
  last messages = Some (user_message (PROMPT_TEMPLATE cfg))
  /\ (messages = [user_message (PROMPT_TEMPLATE cfg)]
      \/ messages
         = [system_message (build_system_prompt cfg use_format use_max_tokens use_stop);
            user_message (PROMPT_TEMPLATE cfg)])
  /\ request_messages cfg false false false = [user_message (PROMPT_TEMPLATE cfg)]
  /\ request_kwargs cfg use_format use_max_tokens use_stop !! "messages"
       = Some (PList messages).
Proof.
  cbv zeta.
  assert (Hk : request_kwargs cfg use_format use_max_tokens use_stop !! "messages"
               = Some (PList (request_messages cfg use_format use_max_tokens use_stop))).
  { unfold request_kwargs.
    generalize (request_messages cfg use_format use_max_tokens use_stop) as msgs.
    intros msgs.
    destruct use_max_tokens, use_stop,
      (use_format && String.eqb (RESPONSE_FORMAT cfg) "json"); reflexivity. }
  rewrite Hk. unfold request_messages.
  destruct (truthy (PStr (build_system_prompt cfg use_format use_max_tokens use_stop)));
    (repeat apply conj; [reflexivity | (now left) || (now right) | reflexivity | reflexivity]).
Qed.

End RequestConstruction.

Section Trials.
Import Py Day02 Spec.
Variables (cfg : Config) (w : world).

Lemma create_calls_app (a b : list event) :
  create_calls (a ++ b) = create_calls a ++ create_calls b.
Proof. apply flat_map_app. Qed.

(** A trial always ends normally, after its header, its call and one
    more line; the line is the error report when [send_request] raised. *)
Lemma trial_run (i : Z) (f m s : bool) (tr : list event) :
  exists header line : string,
    trial cfg w i f m s tr
      = (tr ++ [Print header; Create (request_kwargs cfg f m s); Print line], inr tt)
    /\ (forall e tr', send_request cfg w f m s (tr ++ [Print header]) = (tr', inl e) ->
          line = "Ошибка: " +:+ exc_msg e +:+ nl).
Proof.
  unfold trial.
  match goal with |- context [print ?h ;; _] => exists h end.
  unfold send_request, create, try_except, print, emit, raise, mbind, M_bind, mret, M_ret.
  cbn [dispatch is_Exception].
  destruct (chat_completions_create w (tr ++ _) _) as [e|r].
  - eexists. split.
    + rewrite <- !app_assoc. reflexivity.
    + intros e' tr' [= _ ->]. reflexivity.
  - destruct (seq_index (choices r) 0) as [c|].
    + eexists. split.
      * rewrite <- !app_assoc. reflexivity.
      * intros e' tr' [=].
    + eexists. split.
      * rewrite <- !app_assoc. reflexivity.
      * intros e' tr' [= _ <-]. reflexivity.
Qed.

(** The loop over any list of flag triples runs to its end and calls
    the client once per triple, by induction on the list. *)
Lemma trials_run (l : list (Z * (bool * bool * bool))) (tr : list event) :
  exists tr' : list event,
    for_each (map numbered_tuple l) (iteration cfg w) tr = (tr', inr tt)
    /\ create_calls tr'
       = create_calls tr
           ++ map (fun '(_, (f, m, s)) => request_kwargs cfg f m s) l.
Proof.
  revert tr. induction l as [|[i [[f m] s]] l IH]; intros tr.
  - exists tr. split; [reflexivity|]. now rewrite app_nil_r.
  - destruct (trial_run i f m s tr) as (header & line & Hrun & _).
    cbn [map numbered_tuple for_each iteration]. unfold mbind, M_bind at 1.
    rewrite Hrun.
    destruct (IH (tr ++ [Print header; Create (request_kwargs cfg f m s); Print line]))
      as (tr' & Hrest & Hcalls).
    exists tr'. split; [exact Hrest|].
    rewrite Hcalls, create_calls_app. cbn. now rewrite <- app_assoc.
Qed.

(** C9. In script 2, whatever the transport call does in each trial
    (return, or raise any exception, under any history): a trial in
    which [send_request] raises ends normally after printing one error
    line for that trial, and [main] ends normally after calling the
    client eight times, once per flag tuple in order, each time with the
    keyword arguments built from the configuration and that trial's
    flags alone. *)
Theorem trials_survive_failures :
  (forall (i : Z) (use_format use_max_tokens use_stop : bool) (tr : list event),
     exists header line : string,
       trial cfg w i use_format use_max_tokens use_stop tr
         = (tr ++ [Print header;
                   Create (request_kwargs cfg use_format use_max_tokens use_stop);
                   Print line], inr tt)
       /\ (forall e tr',
             send_request cfg w use_format use_max_tokens use_stop
               (tr ++ [Print header]) = (tr', inl e) ->
             line = "Ошибка: " +:+ exc_msg e +:+ nl))
  /\ snd (run (main cfg w)) = inr tt
  /\ create_calls (fst (run (main cfg w)))
     = [ request_kwargs cfg false false false; request_kwargs cfg false false true;
         request_kwargs cfg false true false;  request_kwargs cfg false true true;
         request_kwargs cfg true false false;  request_kwargs cfg true false true;
         request_kwargs cfg true true false;   request_kwargs cfg true true true ].
Proof.
  split; [apply trial_run|].
  unfold run, main.
  change (enumerate combinations 1) with
    (map numbered_tuple
       [ (1, (false, false, false)); (2, (false, false, true));
         (3, (false, true, false));  (4, (false, true, true));
         (5, (true, false, false));  (6, (true, false, true));
         (7, (true, true, false));   (8, (true, true, true)) ]).
  unfold print, emit, mbind, M_bind. cbn [app].
  match goal with |- context [for_each (map numbered_tuple ?l) _ ?t] =>
    destruct (trials_run l t) as (tr' & Hrun & Hcalls)
  end.
  rewrite Hrun. split; [reflexivity|]. cbn [fst]. rewrite Hcalls. reflexivity.
Qed.

End Trials.

(** ** Properties of script 1 *)

Section Script1.
Import Py Day01 Spec.

(** Unfolds the operations of the monad in the goal. *)
Ltac run_monad :=
  unfold mbind, M_bind, mret, M_ret, try_except, print, emit, raise; cbn.

Variable w : world.

Lemma load_settings_success (d : pydict) (tr : list event) :
  settings_toml w = inr d -> load_settings w tr = (tr, inr (PDict d)).
Proof.
  intros H. unfold load_settings, open_and_load. now rewrite H.
Qed.

(** [raise_for_status] prints nothing. *)
Lemma raise_for_status_trace (r : Response) (tr : list event) :
  raise_for_status r tr = (tr, snd (raise_for_status r [])).
Proof.
  unfold raise_for_status.
  now destruct (truthy _).
Qed.

Section Request.
Variables (d : pydict) (api_key model max_tokens base_url timeout : pyval).
Hypothesis Hapi : dict_get "api_key" d = Some api_key.
Hypothesis Hmodel : dict_get "model" d = Some model.
Hypothesis Hmax : dict_get "max_tokens" d = Some max_tokens.
Hypothesis Hurl : dict_get "base_url" d = Some base_url.
Hypothesis Htimeout : dict_get "timeout" d = Some timeout.

(** The request that [send_request] posts under these settings. *)
Let url := str base_url +:+ "/chat/completions".
Let headers := request_headers api_key.
Let payload := request_payload model (PStr system_prompt) (PStr user_prompt) max_tokens.

(** [send_request] posts the request once; it hands on the decoded body,
    or prints one line and returns [None] when the exception is one of the
    two classes it names, or lets the exception through. *)
Lemma send_request_run (tr : list event) :
  send_request w (PDict d) create_llm_request tr
  = match transport_result (requests_post w url headers payload timeout) with
    | inr v => (tr ++ [HttpPost url headers payload timeout], inr v)
    | inl e =>
        if is_RequestException e then
          (tr ++ [HttpPost url headers payload timeout;
                  Print ("Ошибка запроса к API: " +:+ exc_msg e)], inr PNone)
        else if is_JSONDecodeError e then
          (tr ++ [HttpPost url headers payload timeout;
                  Print ("Ошибка парсинга JSON ответа: " +:+ exc_msg e)], inr PNone)
        else (tr ++ [HttpPost url headers payload timeout], inl e)
    end.
Proof.
  unfold send_request, getitem_str. rewrite Hapi, Hmodel, Hmax, Hurl, Htimeout.
  unfold post. run_monad. fold url headers payload.
  destruct (requests_post w url headers payload timeout) as [e|r]; cbn.
  - destruct (is_RequestException e); [now rewrite <- app_assoc|].
    destruct (is_JSONDecodeError e); [now rewrite <- app_assoc|reflexivity].
  - rewrite raise_for_status_trace. unfold run. run_monad.
    destruct (raise_for_status r []) as [tr0 [e|[]]]; cbn.
    + destruct (is_RequestException e); [now rewrite <- app_assoc|].
      destruct (is_JSONDecodeError e); [now rewrite <- app_assoc|reflexivity].
    + unfold response_json. destruct (json r) as [e|v]; cbn; [|reflexivity].
      destruct (is_RequestException e); [now rewrite <- app_assoc|].
      destruct (is_JSONDecodeError e); [now rewrite <- app_assoc|reflexivity].
Qed.

Hypothesis Hkey : eq_str api_key placeholder_api_key = false.
Hypothesis Hsettings : settings_toml w = inr d.

(** With a key other than the placeholder, [main] goes on to the
    request. *)
Lemma main_run :
  run (main w)
  = (send_request w (PDict d) create_llm_request ≫= report)
      [Print banner; Print sending].
Proof.
  unfold run, main. unfold mbind at 1 2, M_bind at 1 2. unfold print at 1, emit.
  rewrite (load_settings_success _ _ Hsettings).
  destruct d as [|kv d']; [discriminate Hapi|]. cbn [truthy negb].
  unfold mbind at 1, M_bind at 1, getitem_str at 1. rewrite Hapi.
  unfold mret at 1, M_ret at 1. rewrite Hkey.
  reflexivity.
Qed.
End Request.

(** Index 0 of a sequence of positive length is its first element. *)
Lemma seq_index_first {A : Type} (l : list A) :
  (0 <? Z.of_nat (length l)) = true -> exists x, seq_index l 0 = Some x /\ head l = Some x.
Proof.
  destruct l as [|x l]; [discriminate|]. intros _. exists x.
  assert (E : (0 <? Z.of_nat (length (x :: l))) = true)
    by (apply Z.ltb_lt; cbn [length]; lia).
  unfold seq_index. cbv zeta. change (0 <? 0) with false. cbv iota.
  rewrite E. split; reflexivity.
Qed.

Lemma getitem_str_not_IndexError o k tr tr' e :
  getitem_str o k tr = (tr', inl e) -> exc_cls e <> IndexError.
Proof.
  unfold getitem_str, raise, mret, M_ret.
  destruct o; try (intros [= _ <-]; discriminate).
  destruct (dict_get k d); intros [= _ <-]; discriminate.
Qed.

(** Whatever value [report] is given, the index 0 it takes is in range. *)
Lemma report_not_IndexError v tr tr' e :
  report v tr = (tr', inl e) -> exc_cls e <> IndexError.
Proof.
  unfold report. destruct (truthy v); [|discriminate].
  destruct v as [| b | z | r | s | l | rd];
    try (intros [= _ <-]; discriminate).
  - unfold mbind, M_bind, contains_str, mret, M_ret.
    destruct (str_containsb s "choices"); [|discriminate].
    intros [= _ <-]; discriminate.
  - unfold mbind, M_bind, contains_str, mret, M_ret.
    destruct (existsb _ l); [|discriminate].
    intros [= _ <-]; discriminate.
  - unfold mbind, M_bind, contains_str, mret, M_ret.
    unfold getitem_str at 1 2.
    destruct (dict_get "choices" rd) as [c|] eqn:Hc;
      cbn [bool_decide decide_rel]; [|discriminate].
    rewrite bool_decide_eq_true_2 by eauto.
    unfold mret, M_ret, len.
    destruct c as [| b | z | r | s | l | cd];
      try (intros [= _ <-]; discriminate).
    + unfold mret, M_ret. destruct (0 <? Z.of_nat (str_len s)) eqn:Hn; [|discriminate].
      unfold getitem_int. destruct (seq_index_first _ Hn) as (x & -> & _).
      unfold mret, M_ret. intros [= _ <-]; discriminate.
    + unfold mret, M_ret. destruct (0 <? Z.of_nat (length l)) eqn:Hn; [|discriminate].
      unfold getitem_int. destruct (seq_index_first _ Hn) as (x & -> & _).
      unfold mret, M_ret.
      destruct (getitem_str x "message" tr) as [tr1 [e1|msg]] eqn:H1.
      * intros [= _ <-]. eapply getitem_str_not_IndexError, H1.
      * destruct (getitem_str msg "content" tr1) as [tr2 [e2|content]] eqn:H2.
        -- intros [= _ <-]. eapply getitem_str_not_IndexError, H2.
        -- discriminate.
    + unfold mret, M_ret. destruct (0 <? Z.of_nat (length cd)); [|discriminate].
      intros [= _ <-]; discriminate.
Qed.

(** C7. When the loaded configuration has the placeholder as its
    [api_key], [main] of script 1 prints its start-up line and then one
    diagnostic, the warning about the key, and returns: the trace holds
    these two lines only, so no request is posted. *)
Theorem placeholder_key_aborts (d : pydict) :
  settings_toml w = inr d ->
  dict_get "api_key" d = Some (PStr placeholder_api_key) ->
  run (main w)
    = ([ Print banner;
         Print "Внимание: В файле settings.toml не указан API ключ. Пожалуйста, укажите ваш API ключ." ],
       inr tt)
  /\ http_posts (fst (run (main w))) = []
  /\ printed (fst (run (main w)))
     = [ banner;
         "Внимание: В файле settings.toml не указан API ключ. Пожалуйста, укажите ваш API ключ." ].
Proof.
  intros Hsettings Hapi.
  assert (Hrun : run (main w)
    = ([ Print banner;
         Print "Внимание: В файле settings.toml не указан API ключ. Пожалуйста, укажите ваш API ключ." ],
       inr tt)).
  { unfold run, main. unfold mbind at 1 2, M_bind at 1 2. unfold print at 1, emit.
    rewrite (load_settings_success _ _ Hsettings).
    destruct d as [|kv d']; [discriminate Hapi|]. cbn [truthy negb].
    unfold mbind at 1, M_bind at 1, getitem_str at 1. rewrite Hapi.
    reflexivity. }
  rewrite Hrun. repeat split.
Qed.

End Script1.

Section Script1Claims.
Import Py Day01 Spec Examples.

(** C8. The claim is that in script 1 every configuration error is
    caught where it arises and no exception leaves [main].  The code does
    not do that.  A configuration file that parses but has no [api_key]
    makes [settings["api_key"]] raise [KeyError] in [main], in the very
    test that the comment of the source calls the check that the key is
    there, outside every [try]; and a response with status 200 whose first
    choice has no [message] makes [result["choices"][0]["message"]] raise
    [KeyError] in [main].  In both runs the exception leaves [main], where
    the paths beside them (a missing file, the placeholder key, a response
    without choices) print a message and return. *)
Lemma missing_key_escapes :
  snd (run (main missing_key_world)) = inl (Exc KeyError "'api_key'")
  /\ ~ no_exception_escapes missing_key_world
  /\ snd (run (main legacy_body_world)) = inl (Exc KeyError "'message'")
  /\ ~ no_exception_escapes legacy_body_world.
Proof.
  split; [reflexivity|]. split; [|split; [reflexivity|]].
  - intros [tr H]. vm_compute in H. discriminate H.
  - intros [tr H]. vm_compute in H. discriminate H.
Qed.

(** The errors that the two [try] statements of script 1 name are caught
    where they arise.  Any exception raised while opening or parsing the
    configuration file makes [load_settings] print one message and return
    [None], and [main] then returns.  When the settings hold the keys
    api_key, model, max_tokens, base_url and timeout (the key not being
    the placeholder), a [RequestException] or [JSONDecodeError] raised by
    the transport call, by [raise_for_status] or by [json()] makes
    [send_request] print one message and return [None], and [main] then
    prints that no answer was obtained and returns. *)
Theorem caught_errors_return_normally (w : world) :
  (forall e : exception,
     settings_toml w = inl e ->
     exists msg : string,
       (forall tr, load_settings w tr = (tr ++ [Print msg], inr PNone))
       /\ run (main w) = ([Print banner; Print msg], inr tt))
  /\ (forall (d : pydict) (api_key model max_tokens base_url timeout : pyval)
         (e : exception),
       settings_toml w = inr d ->
       dict_get "api_key" d = Some api_key ->
       dict_get "model" d = Some model ->
       dict_get "max_tokens" d = Some max_tokens ->
       dict_get "base_url" d = Some base_url ->
       dict_get "timeout" d = Some timeout ->
       eq_str api_key placeholder_api_key = false ->
       let url := str base_url +:+ "/chat/completions" in
       let headers := request_headers api_key in
       let payload :=
         request_payload model (PStr system_prompt) (PStr user_prompt) max_tokens in
       transport_result (requests_post w url headers payload timeout) = inl e ->
       is_RequestException e || is_JSONDecodeError e = true ->
       exists msg : string,
         (forall tr, send_request w (PDict d) create_llm_request tr
                     = (tr ++ [HttpPost url headers payload timeout; Print msg],
                        inr PNone))
         /\ run (main w)
            = ([ Print banner; Print sending;
                 HttpPost url headers payload timeout; Print msg;
                 Print "Не удалось получить ответ от модели" ], inr tt)).
Proof.
  split.
  - intros e He.
    exists (if is_FileNotFoundError e then "Ошибка: файл settings.toml не найден"
            else "Ошибка чтения конфигурационного файла: " +:+ exc_msg e).
    assert (Hload : forall tr, load_settings w tr
              = (tr ++ [Print (if is_FileNotFoundError e
                               then "Ошибка: файл settings.toml не найден"
                               else "Ошибка чтения конфигурационного файла: "
                                      +:+ exc_msg e)], inr PNone)).
    { intros tr. unfold load_settings, open_and_load. rewrite He.
      unfold try_except, raise. cbn [dispatch].
      now destruct (is_FileNotFoundError e). }
    split; [exact Hload|].
    unfold run, main. unfold mbind at 1 2, M_bind at 1 2. unfold print at 1, emit.
    now rewrite Hload.
  - intros d api_key model max_tokens base_url timeout e
      Hsettings Hapi Hmodel Hmax Hurl Htimeout Hkey url headers payload Hfail Hcaught.
    exists (if is_RequestException e then "Ошибка запроса к API: " +:+ exc_msg e
            else "Ошибка парсинга JSON ответа: " +:+ exc_msg e).
    assert (Hsend : forall tr, send_request w (PDict d) create_llm_request tr
              = (tr ++ [HttpPost url headers payload timeout;
                        Print (if is_RequestException e
                               then "Ошибка запроса к API: " +:+ exc_msg e
                               else "Ошибка парсинга JSON ответа: " +:+ exc_msg e)],
                 inr PNone)).
    { intros tr.
      rewrite (send_request_run w d api_key model max_tokens base_url timeout
                 Hapi Hmodel Hmax Hurl Htimeout).
      fold url headers payload. rewrite Hfail.
      destruct (is_RequestException e); [reflexivity|].
      cbn in Hcaught. now rewrite Hcaught. }
    split; [exact Hsend|].
    erewrite main_run by eassumption.
    unfold mbind, M_bind. now rewrite Hsend.
Qed.

(** The theorem at a missing file and at a request that times out. *)
Lemma caught_errors_return_normally_witness :
  (exists msg : string,
     (forall tr, load_settings missing_file_world tr = (tr ++ [Print msg], inr PNone))
     /\ run (main missing_file_world) = ([Print banner; Print msg], inr tt))
  /\ snd (run (main timeout_world)) = inr tt.
Proof.
  split.
  - apply (proj1 (caught_errors_return_normally missing_file_world)
             (Exc FileNotFoundError
                "[Errno 2] No such file or directory: 'settings.toml'")).
    reflexivity.
  - destruct (proj2 (caught_errors_return_normally timeout_world)
                (sample_settings (PStr "sk-test")) (PStr "sk-test")
                (PStr "gpt-4o-mini") (PInt 1000)
                (PStr "https://api.example.com/v1") (PInt 30)
                (Exc RequestException "Read timed out.")
                eq_refl eq_refl eq_refl eq_refl eq_refl eq_refl eq_refl
                eq_refl eq_refl) as (msg & _ & Hrun).
    rewrite Hrun. reflexivity.
Defined.

(** The theorem at the settings file as it is shipped. *)
Lemma placeholder_key_aborts_witness :
  run (main placeholder_world)
    = ([ Print banner;
         Print "Внимание: В файле settings.toml не указан API ключ. Пожалуйста, укажите ваш API ключ." ],
       inr tt)
  /\ http_posts (fst (run (main placeholder_world))) = []
  /\ printed (fst (run (main placeholder_world)))
     = [ banner;
         "Внимание: В файле settings.toml не указан API ключ. Пожалуйста, укажите ваш API ключ." ].
Proof.
  apply (placeholder_key_aborts placeholder_world
           (sample_settings (PStr "your-api-key-here"))); reflexivity.
Defined.

(** C10. When [send_request] of script 1 returns the decoded body of a
    response, [main] takes [choices[0]] only after its test of
    ["choices" in result] and [len(result["choices"]) > 0] has passed, so
    that the index is in range: no [IndexError] arises.  For a response
    dict in which [choices] is absent or an empty list, [main] prints a
    diagnostic and returns without indexing; for one whose first choice
    has [message.content], it prints that content. *)
Theorem choices_indexed_only_when_nonempty
    (w : world) (d : pydict)
    (api_key model max_tokens base_url timeout result : pyval) :
  settings_toml w = inr d ->
  dict_get "api_key" d = Some api_key ->
  dict_get "model" d = Some model ->
  dict_get "max_tokens" d = Some max_tokens ->
  dict_get "base_url" d = Some base_url ->
  dict_get "timeout" d = Some timeout ->
  eq_str api_key placeholder_api_key = false ->
  let url := str base_url +:+ "/chat/completions" in
  let headers := request_headers api_key in
  let payload :=
    request_payload model (PStr system_prompt) (PStr user_prompt) max_tokens in
  let sent := [Print banner; Print sending; HttpPost url headers payload timeout] in
  transport_result (requests_post w url headers payload timeout) = inr result ->
  (forall tr e, run (main w) = (tr, inl e) -> exc_cls e <> IndexError)
  /\ (forall rd : pydict,
        result = PDict rd ->
        dict_get "choices" rd = None \/ dict_get "choices" rd = Some (PList []) ->
        exists diagnostic : string,
          run (main w) = (sent ++ [Print diagnostic], inr tt)
          /\ (diagnostic = "Ошибка: Не удалось получить ответ от модели"
              \/ diagnostic = "Не удалось получить ответ от модели"))
  /\ (forall (rd fd md : pydict) (rest : list pyval) (text : pyval),
        result = PDict rd ->
        dict_get "choices" rd = Some (PList (PDict fd :: rest)) ->
        dict_get "message" fd = Some (PDict md) ->
        dict_get "content" md = Some text ->
        run (main w)
          = (sent ++ [ Print (nl +:+ str_repeat "=" 60); Print "Ваш ASCII котик:";
                       Print (str_repeat "=" 60); Print (str text);
                       Print (str_repeat "=" 60) ], inr tt)).
Proof.
  intros Hsettings Hapi Hmodel Hmax Hurl Htimeout Hkey url headers payload sent Hok.
  assert (Hrun : run (main w) = report result sent).
  { erewrite main_run by eassumption.
    unfold mbind, M_bind.
    rewrite (send_request_run w d api_key model max_tokens base_url timeout
               Hapi Hmodel Hmax Hurl Htimeout).
    fold url headers payload. now rewrite Hok. }
  rewrite Hrun. split; [|split].
  - intros tr e. apply report_not_IndexError.
  - intros rd -> Hchoices. unfold report.
    destruct rd as [|kv rd'].
    + eexists; split; [reflexivity | now right].
    + cbn [truthy]. unfold mbind, M_bind, contains_str, mret, M_ret.
      destruct Hchoices as [Hc|Hc].
      * rewrite Hc. rewrite bool_decide_eq_false_2 by (intros [? ?]; discriminate).
        eexists; split; [reflexivity | now left].
      * rewrite bool_decide_eq_true_2 by (rewrite Hc; eauto).
        unfold getitem_str. rewrite Hc. cbn.
        eexists; split; [reflexivity | now left].
  - intros rd fd md rest text -> Hc Hm Ht. unfold report.
    destruct rd as [|kv rd']; [discriminate Hc|].
    cbn [truthy]. unfold mbind, M_bind, contains_str, mret, M_ret.
    rewrite bool_decide_eq_true_2 by (rewrite Hc; eauto).
    unfold getitem_str at 1 2. rewrite Hc. unfold mret, M_ret, len.
    assert (Hn : (0 <? Z.of_nat (length (PDict fd :: rest))) = true)
      by (apply Z.ltb_lt; cbn [length]; lia).
    unfold mret, M_ret. cbv beta iota. rewrite Hn.
    destruct (seq_index_first _ Hn) as (x & Hx & [= <-]).
    unfold getitem_int. rewrite Hx.
    unfold mret, M_ret. cbv beta iota.
    unfold getitem_str at 1. rewrite Hm. unfold mret, M_ret. cbv beta iota.
    unfold getitem_str at 1. rewrite Ht.
    reflexivity.
Qed.

(** The theorem at a response with no choices and at one with an
    answer. *)
Lemma choices_indexed_only_when_nonempty_witness :
  (forall tr e, run (main empty_choices_world) = (tr, inl e) -> exc_cls e <> IndexError)
  /\ snd (run (main empty_choices_world)) = inr tt
  /\ printed (fst (run (main cat_world)))
     = [ banner; sending; nl +:+ str_repeat "=" 60; "Ваш ASCII котик:";
         str_repeat "=" 60; "=^.^="; str_repeat "=" 60 ].
Proof.
  pose proof (choices_indexed_only_when_nonempty empty_choices_world
                (sample_settings (PStr "sk-test")) (PStr "sk-test")
                (PStr "gpt-4o-mini") (PInt 1000)
                (PStr "https://api.example.com/v1") (PInt 30)
                (PDict [("choices", PList [])])
                eq_refl eq_refl eq_refl eq_refl eq_refl eq_refl eq_refl eq_refl)
    as (Hnot & Hdiag & _).
  pose proof (choices_indexed_only_when_nonempty cat_world
                (sample_settings (PStr "sk-test")) (PStr "sk-test")
                (PStr "gpt-4o-mini") (PInt 1000)
                (PStr "https://api.example.com/v1") (PInt 30)
                _ eq_refl eq_refl eq_refl eq_refl eq_refl eq_refl eq_refl eq_refl)
    as (_ & _ & Hcat).
  split; [exact Hnot|]. split.
  - destruct (Hdiag _ eq_refl (or_intror eq_refl)) as (diag & -> & _). reflexivity.
  - rewrite (Hcat _ _ _ _ _ eq_refl eq_refl eq_refl eq_refl). reflexivity.
Defined.
End Script1Claims.

(** ** Further properties of script 2 *)

Section Library.
Import Py Day02 Spec Text.

Lemma str_contains_prefixed (pre hay s : string) :
  str_contains hay s -> str_contains (pre +:+ hay) s.
Proof.
  intros (a & b & ->). exists (pre +:+ a), b. now rewrite append_assoc.
Qed.

Lemma str_contains_self (s : string) : str_contains s s.
Proof. exists EmptyString, EmptyString. now rewrite append_empty_r. Qed.

Lemma seq_index_0_head {A : Type} (l : list A) : seq_index l 0 = head l.
Proof.
  destruct l as [|x l]; [reflexivity|].
  assert (E : (0 <? Z.of_nat (length (x :: l))) = true)
    by (apply Z.ltb_lt; cbn [length]; lia).
  unfold seq_index. cbv zeta. change (0 <? 0) with false. cbv iota.
  now rewrite E.
Qed.

Lemma repr_char_plain (c : ascii) :
  plain_char c = true -> repr_char "'"%char c = String c EmptyString.
Proof.
  unfold plain_char, repr_char. cbv zeta.
  intros H. apply andb_prop in H as [H H4]. apply andb_prop in H as [H H3].
  apply andb_prop in H as [H1 H2].
  apply negb_true_iff in H3, H4. rewrite H3, H4. cbn [orb].
  apply Nat.leb_le in H1. apply Nat.ltb_lt in H2.
  replace (nat_of_ascii c =? 9)%nat with false by (symmetry; apply Nat.eqb_neq; lia).
  replace (nat_of_ascii c =? 10)%nat with false by (symmetry; apply Nat.eqb_neq; lia).
  replace (nat_of_ascii c =? 13)%nat with false by (symmetry; apply Nat.eqb_neq; lia).
  replace (nat_of_ascii c <? 32)%nat with false by (symmetry; apply Nat.ltb_ge; lia).
  replace (nat_of_ascii c =? 127)%nat with false by (symmetry; apply Nat.eqb_neq; lia).
  reflexivity.
Qed.

Lemma has_char_plain (s : string) :
  plain s = true -> has_char "'"%char s = false.
Proof.
  unfold plain, has_char. induction (list_ascii_of_string s) as [|c l IH]; [reflexivity|].
  cbn [forallb existsb]. intros H. apply andb_prop in H as [Hc Hl].
  rewrite (IH Hl), orb_false_r.
  unfold plain_char in Hc. cbv zeta in Hc.
  apply andb_prop in Hc as [Hc _]. apply andb_prop in Hc as [_ Hc].
  apply negb_true_iff in Hc. now rewrite Ascii.eqb_sym.
Qed.

Lemma concat_repr_plain (s : string) :
  plain s = true ->
  String.concat EmptyString (map (repr_char "'"%char) (list_ascii_of_string s)) = s.
Proof.
  unfold plain. induction s as [|c s IH]; [reflexivity|].
  cbn [list_ascii_of_string forallb map]. intros H. apply andb_prop in H as [Hc Hs].
  rewrite (repr_char_plain c Hc). specialize (IH Hs).
  destruct (map (repr_char "'"%char) (list_ascii_of_string s)) as [|x xs] eqn:E.
  - cbn in IH. now subst s.
  - cbn [String.concat]. cbn [String.concat] in IH.
    change (String c EmptyString +:+ EmptyString +:+ ?t) with (String c t).
    now rewrite IH.
Qed.

(** The stop sequence is shown as Python writes a string: for a stop
    sequence of printable ASCII characters with no single quote and no
    backslash, the stop instruction of the system prompt and the [stop=]
    entry of the trial header hold the sequence itself between single
    quotes. *)
Theorem stop_sequence_shown_in_quotes (cfg : Config) :
  plain (STOP_SEQUENCE cfg) = true ->
  repr_str (STOP_SEQUENCE cfg) = "'" +:+ STOP_SEQUENCE cfg +:+ "'"
  /\ stop_instruction cfg
     = "Заверши ответ перед последовательностью: "
         +:+ "'" +:+ STOP_SEQUENCE cfg +:+ "'"
  /\ build_system_prompt cfg false false true
     = "Заверши ответ перед последовательностью: "
         +:+ "'" +:+ STOP_SEQUENCE cfg +:+ "'".
Proof.
  intros H.
  assert (Hr : repr_str (STOP_SEQUENCE cfg) = "'" +:+ STOP_SEQUENCE cfg +:+ "'").
  { unfold repr_str. rewrite (has_char_plain _ H). cbn [andb].
    now rewrite (concat_repr_plain _ H). }
  split; [exact Hr|].
  assert (Hi : stop_instruction cfg
     = "Заверши ответ перед последовательностью: "
         +:+ "'" +:+ STOP_SEQUENCE cfg +:+ "'")
    by (unfold stop_instruction; now rewrite Hr).
  split; [exact Hi|].
  change (build_system_prompt cfg false false true) with (stop_instruction cfg).
  exact Hi.
Qed.

(** The theorem at the stop sequence STOP. *)
Lemma stop_sequence_shown_in_quotes_witness :
  build_system_prompt
    {| PROMPT_TEMPLATE := "ping"; RESPONSE_FORMAT := "json"; MAX_TOKENS := 5;
       STOP_SEQUENCE := "STOP"; MODEL := "gpt-4o-mini" |} false false true
  = "Заверши ответ перед последовательностью: 'STOP'".
Proof.
  apply (stop_sequence_shown_in_quotes
           {| PROMPT_TEMPLATE := "ping"; RESPONSE_FORMAT := "json"; MAX_TOKENS := 5;
              STOP_SEQUENCE := "STOP"; MODEL := "gpt-4o-mini" |}).
  reflexivity.
Defined.

Lemma step_length {A : Type} (pool : list A) (result : list (list A)) :
  length (flat_map (fun x => map (fun y => x ++ [y]) pool) result)
  = (length result * length pool)%nat.
Proof.
  induction result as [|x result IH]; [reflexivity|].
  cbn [flat_map]. rewrite length_app, length_map, IH. cbn [length]. lia.
Qed.

Lemma product_single {A : Type} (pool : list A) (n : nat) :
  product [pool] (S n)
  = flat_map (fun x => map (fun y => x ++ [y]) pool) (product [pool] n).
Proof.
  unfold product.
  assert (H : forall k, concat (replicate k [pool]) = replicate k pool).
  { induction k as [|k IH]; [reflexivity|]. cbn. now rewrite IH. }
  rewrite !H. rewrite replicate_S_end, fold_left_app. reflexivity.
Qed.

(** [product] of one pool repeated [n] times, for any pool: it yields
    [len(pool) ** n] tuples, each of [n] elements, all taken from the
    pool.  With [n = 3] every tuple has three elements, which is what the
    unpacking in the loop of [main] needs. *)
Theorem product_of_one_pool {A : Type} (pool : list A) (n : nat) :
  length (product [pool] n) = (length pool ^ n)%nat
  /\ Forall (fun t => length t = n /\ Forall (fun x => x ∈ pool) t) (product [pool] n).
Proof.
  induction n as [|n [IHlen IHall]].
  - split; [reflexivity|]. repeat constructor.
  - rewrite product_single. split.
    + rewrite step_length, IHlen. cbn [Nat.pow]. lia.
    + apply Forall_forall. intros t Ht.
      apply list_elem_of_In, in_flat_map in Ht as (x & Hx & Ht).
      apply in_map_iff in Ht as (y & <- & Hy).
      rewrite Forall_forall in IHall.
      destruct (IHall x (proj2 (list_elem_of_In _ _) Hx)) as [Hl Hm].
      split.
      * rewrite length_app, Hl. cbn [length]. lia.
      * apply Forall_app. split; [exact Hm|].
        constructor; [now apply list_elem_of_In | constructor].
Qed.

(** [enumerate] numbers the items in order from the start value: the item
    at position [k] comes with the number [start + k], and nothing is
    added or dropped. *)
Theorem enumerate_lookup {A : Type} (l : list A) (start : Z) (k : nat) :
  enumerate l start !! k = (fun x => (start + Z.of_nat k, x)) <$> l !! k.
Proof.
  revert start k. induction l as [|x l IH]; intros start k; [now destruct k|].
  destruct k as [|k]; cbn [enumerate].
  - cbn. now rewrite Z.add_0_r.
  - cbn [lookup list_lookup]. rewrite IH.
    destruct (l !! k); cbn; [|reflexivity]. do 2 f_equal. lia.
Qed.

End Library.

Section MoreRequestConstruction.
Import Py Day02 Spec.
Variable cfg : Config.

(** The system message is there exactly when some flag is set: the system
    prompt is the empty string only for (F,F,F), so the message list has
    two messages, the system message first, when a flag is set, and one
    message otherwise. *)
Theorem system_prompt_empty_iff_no_flag (use_format use_max_tokens use_stop : bool) :
  (build_system_prompt cfg use_format use_max_tokens use_stop = EmptyString
   <-> use_format || use_max_tokens || use_stop = false)
  /\ length (request_messages cfg use_format use_max_tokens use_stop)
     = (if use_format || use_max_tokens || use_stop then 2 else 1)%nat
  /\ (head (request_messages cfg use_format use_max_tokens use_stop)
      = Some (system_message (build_system_prompt cfg use_format use_max_tokens use_stop))
      <-> use_format || use_max_tokens || use_stop = true).
Proof.
  unfold request_messages.
  destruct use_format, use_max_tokens, use_stop; cbn [orb];
    (split; [split; [discriminate || reflexivity | discriminate || reflexivity]|]);
    (split; [reflexivity|]);
    (split; [discriminate || reflexivity | discriminate || reflexivity]).
Qed.

(** What is asked of the endpoint is also said in the prompt: for every
    flag that is set, whatever the other flags, the system prompt contains
    that flag's instruction in full. *)
Theorem enabled_instructions_occur (use_format use_max_tokens use_stop : bool) :
  let text := build_system_prompt cfg use_format use_max_tokens use_stop in
  (use_format = true -> str_contains text (format_instruction cfg))
  /\ (use_max_tokens = true -> str_contains text (max_tokens_instruction cfg))
  /\ (use_stop = true -> str_contains text (stop_instruction cfg)).
Proof.
  cbv zeta. rewrite build_system_prompt_enabled. unfold enabled_instructions, str_join.
  destruct use_format, use_max_tokens, use_stop; cbn [app String.concat];
    repeat split; try discriminate; intros _;
    first [ apply str_contains_self
          | apply (str_contains_middle EmptyString)
          | apply str_contains_prefixed, str_contains_prefixed, str_contains_self
          | apply str_contains_prefixed, str_contains_prefixed,
              (str_contains_middle EmptyString)
          | apply str_contains_prefixed, str_contains_prefixed,
              str_contains_prefixed, str_contains_prefixed, str_contains_self ].
Qed.

(** The two mandatory keyword arguments are always there: [model] is the
    configured model and [messages] the message list, whatever the flags;
    and the request has exactly these two arguments plus one for each of
    max_tokens, stop and (for the format "json") response_format that its
    flag adds. *)
Theorem mandatory_fields_always_present (use_format use_max_tokens use_stop : bool) :
  let kwargs := request_kwargs cfg use_format use_max_tokens use_stop in
  kwargs !! "model" = Some (PStr (MODEL cfg))
  /\ kwargs !! "messages"
     = Some (PList (request_messages cfg use_format use_max_tokens use_stop))
  /\ size kwargs
     = (2 + (if use_max_tokens then 1 else 0) + (if use_stop then 1 else 0)
        + (if use_format && String.eqb (RESPONSE_FORMAT cfg) "json" then 1 else 0))%nat.
Proof.
  cbv zeta. unfold request_kwargs.
  generalize (request_messages cfg use_format use_max_tokens use_stop) as msgs.
  intros msgs.
  destruct use_format, use_max_tokens, use_stop,
    (String.eqb (RESPONSE_FORMAT cfg) "json"); cbn [andb];
    (repeat apply conj; [reflexivity | reflexivity | compute_done || reflexivity]).
Qed.

End MoreRequestConstruction.

Section MoreTrials.
Import Py Day02 Spec.
Variables (cfg : Config) (w : world).

Lemma printed_app (a b : list event) : printed (a ++ b) = printed a ++ printed b.
Proof. apply flat_map_app. Qed.

(** What a trial prints after its header and its call, by what the client
    did.  An exception gives the error line with its message.  A result
    gives the answer of the first choice, the other choices being ignored,
    and an answer that is [None] is printed as the word None.  A result
    with no choice at all gives the error line of the [IndexError] that
    [choices[0]] raises. *)
Theorem trial_result_line (i : Z) (use_format use_max_tokens use_stop : bool)
    (tr : list event) :
  exists header : string,
    let kwargs := request_kwargs cfg use_format use_max_tokens use_stop in
    let line :=
      match chat_completions_create w (tr ++ [Print header]) kwargs with
      | inl e => "Ошибка: " +:+ exc_msg e +:+ nl
      | inr {| choices := [] |} => "Ошибка: list index out of range" +:+ nl
      | inr {| choices := first :: _ |} =>
          match content (message first) with
          | Some text => "Ответ:" +:+ nl +:+ text +:+ nl
          | None => "Ответ:" +:+ nl +:+ "None" +:+ nl
          end
      end in
    trial cfg w i use_format use_max_tokens use_stop tr
    = (tr ++ [Print header; Create kwargs; Print line], inr tt).
Proof.
  unfold trial.
  match goal with |- context [print ?h ;; _] => exists h end.
  cbv zeta.
  unfold send_request, create, try_except, print, emit, raise, mbind, M_bind, mret, M_ret.
  cbn [dispatch is_Exception].
  destruct (chat_completions_create w (tr ++ _) _) as [e|[chs]].
  - rewrite <- !app_assoc. reflexivity.
  - cbn [choices]. rewrite seq_index_0_head.
    destruct chs as [|[[[text|]]] rest]; cbn [head];
      rewrite <- !app_assoc; reflexivity.
Qed.

(** The loop over any list of flag triples only adds to the trace: two
    lines and one call per triple. *)
Lemma trials_extend (l : list (Z * (bool * bool * bool))) (tr : list event) :
  exists ext : list event,
    for_each (map numbered_tuple l) (iteration cfg w) tr = (tr ++ ext, inr tt)
    /\ length (printed ext) = (2 * length l)%nat
    /\ length (create_calls ext) = length l.
Proof.
  revert tr. induction l as [|[i [[f m] s]] l IH]; intros tr.
  - exists []. rewrite app_nil_r. repeat split.
  - destruct (trial_run cfg w i f m s tr) as (header & line & Hrun & _).
    cbn [map numbered_tuple for_each iteration]. unfold mbind, M_bind at 1.
    rewrite Hrun.
    destruct (IH (tr ++ [Print header; Create (request_kwargs cfg f m s); Print line]))
      as (ext & Hrest & Hlen & Hcalls).
    exists ([Print header; Create (request_kwargs cfg f m s); Print line] ++ ext).
    rewrite app_assoc. split; [exact Hrest|].
    rewrite printed_app, create_calls_app, !length_app, Hlen, Hcalls.
    cbn [length printed create_calls flat_map app]. split; lia.
Qed.

(** Whatever the client does, a run of [main] prints twenty lines: the
    four lines of the heading, the last of which shows the prompt, and
    then for each of the eight trials its header and one result line. *)
Theorem main_prints_twenty_lines :
  length (printed (fst (run (main cfg w)))) = 20%nat
  /\ take 4 (printed (fst (run (main cfg w))))
     = [ str_repeat "=" 60; "Перебор всех комбинаций опциональных параметров";
         str_repeat "=" 60; "Запрос: " +:+ PROMPT_TEMPLATE cfg +:+ nl ]
  /\ snd (run (main cfg w)) = inr tt.
Proof.
  unfold run, main.
  change (enumerate combinations 1) with
    (map numbered_tuple
       [ (1, (false, false, false)); (2, (false, false, true));
         (3, (false, true, false));  (4, (false, true, true));
         (5, (true, false, false));  (6, (true, false, true));
         (7, (true, true, false));   (8, (true, true, true)) ]).
  unfold print, emit, mbind, M_bind. cbn [app].
  match goal with |- context [for_each (map numbered_tuple ?l) _ ?t] =>
    destruct (trials_extend l t) as (ext & Hrun & Hlen & _)
  end.
  rewrite Hrun. cbn [fst snd]. rewrite printed_app, length_app, Hlen.
  repeat split.
Qed.

End MoreTrials.

(** ** Further properties of script 1 *)

Section Script1Helpers.
Import Py Day01 Spec.

Lemma http_posts_app (a b : list event) :
  http_posts (a ++ b) = http_posts a ++ http_posts b.
Proof. apply flat_map_app. Qed.

Lemma http_posts_prints (lines : list string) : http_posts (map Print lines) = [].
Proof. induction lines as [|x lines IH]; [reflexivity | exact IH]. Qed.

Lemma append_not_empty (a b : string) : b <> EmptyString -> a +:+ b <> EmptyString.
Proof. destruct a; [trivial | discriminate]. Qed.

Lemma getitem_str_trace (o : pyval) (k : string) (tr : list event) :
  fst (getitem_str o k tr) = tr.
Proof.
  unfold getitem_str. destruct o; try reflexivity. now destruct (dict_get k d).
Qed.

(** [load_settings] by what the file read gives. *)
Lemma load_settings_run (w : world) (tr : list event) :
  load_settings w tr
  = match settings_toml w with
    | inr d => (tr, inr (PDict d))
    | inl e =>
        (tr ++ [Print (if is_FileNotFoundError e
                       then "Ошибка: файл settings.toml не найден"
                       else "Ошибка чтения конфигурационного файла: " +:+ exc_msg e)],
         inr PNone)
    end.
Proof.
  unfold load_settings, open_and_load.
  destruct (settings_toml w) as [e|d]; [|reflexivity].
  unfold try_except, raise. cbn [dispatch].
  now destruct (is_FileNotFoundError e).
Qed.

(** With a key other than the placeholder, [main] goes on to the request,
    whatever the other keys. *)
Lemma main_reaches_request (w : world) (d : pydict) (api_key : pyval) :
  settings_toml w = inr d ->
  dict_get "api_key" d = Some api_key ->
  eq_str api_key placeholder_api_key = false ->
  run (main w)
  = (send_request w (PDict d) create_llm_request ≫= report)
      [Print banner; Print sending].
Proof.
  intros Hsettings Hapi Hkey.
  unfold run, main. unfold mbind at 1 2, M_bind at 1 2. unfold print at 1, emit.
  rewrite (load_settings_success _ _ _ Hsettings).
  destruct d as [|kv d']; [discriminate Hapi|]. cbn [truthy negb].
  unfold mbind at 1, M_bind at 1, getitem_str at 1. rewrite Hapi.
  unfold mret at 1, M_ret at 1. rewrite Hkey.
  reflexivity.
Qed.

(** A key that [send_request] reads and the settings lack. *)
Lemma send_request_key_missing (w : world) (d : pydict) (api_key : pyval) :
  dict_get "api_key" d = Some api_key ->
  dict_get "model" d = None \/ dict_get "max_tokens" d = None
    \/ dict_get "base_url" d = None \/ dict_get "timeout" d = None ->
  exists k : string,
    k ∈ ["model"; "max_tokens"; "base_url"; "timeout"]
    /\ dict_get k d = None
    /\ (forall tr, send_request w (PDict d) create_llm_request tr
                   = (tr, inl (Exc KeyError (repr_str k)))).
Proof.
  intros Ha Hmiss.
  destruct (dict_get "model" d) as [model|] eqn:Hmodel.
  2:{ exists "model". split; [repeat constructor|]. split; [exact Hmodel|]. intros tr.
      unfold send_request, getitem_str. rewrite Ha, Hmodel. reflexivity. }
  destruct (dict_get "max_tokens" d) as [mt|] eqn:Hmt.
  2:{ exists "max_tokens". split; [repeat constructor|]. split; [exact Hmt|]. intros tr.
      unfold send_request, getitem_str. rewrite Ha, Hmodel, Hmt. reflexivity. }
  destruct (dict_get "base_url" d) as [bu|] eqn:Hbu.
  2:{ exists "base_url". split; [repeat constructor|]. split; [exact Hbu|]. intros tr.
      unfold send_request, getitem_str. rewrite Ha, Hmodel, Hmt, Hbu. reflexivity. }
  destruct (dict_get "timeout" d) as [to|] eqn:Hto.
  2:{ exists "timeout". split; [repeat constructor|]. split; [exact Hto|]. intros tr.
      unfold send_request, getitem_str. rewrite Ha, Hmodel, Hmt, Hbu, Hto. reflexivity. }
  destruct Hmiss as [H|[H|[H|H]]]; discriminate H.
Qed.

(** With all its keys, [send_request] posts one request, whatever comes
    back. *)
Lemma send_request_posts (w : world) (d : pydict)
    (api_key model max_tokens base_url timeout : pyval) (tr : list event) :
  dict_get "api_key" d = Some api_key ->
  dict_get "model" d = Some model ->
  dict_get "max_tokens" d = Some max_tokens ->
  dict_get "base_url" d = Some base_url ->
  dict_get "timeout" d = Some timeout ->
  http_posts (fst (send_request w (PDict d) create_llm_request tr))
  = http_posts tr
      ++ [(str base_url +:+ "/chat/completions", request_headers api_key,
           request_payload model (PStr system_prompt) (PStr user_prompt) max_tokens,
           timeout)].
Proof.
  intros Hapi Hmodel Hmax Hurl Htimeout.
  rewrite (send_request_run w d api_key model max_tokens base_url timeout
             Hapi Hmodel Hmax Hurl Htimeout).
  destruct (transport_result _) as [e|v]; [|cbn [fst]; now rewrite http_posts_app].
  destruct (is_RequestException e); [cbn [fst]; now rewrite http_posts_app|].
  destruct (is_JSONDecodeError e); cbn [fst]; now rewrite http_posts_app.
Qed.

(** [report] does nothing but print. *)
Lemma report_only_prints (v : pyval) (tr : list event) :
  exists lines : list string, fst (report v tr) = tr ++ map Print lines.
Proof.
  assert (Hnil : forall t : list event, t = t ++ map Print [])
    by (intros; now rewrite app_nil_r).
  unfold report. destruct (truthy v); [|now exists ["Не удалось получить ответ от модели"]].
  unfold mbind, M_bind.
  destruct (contains_str "choices" v tr) as [tr1 [e|has]] eqn:Hc.
  { exists []. cbn [fst]. unfold contains_str in Hc.
    destruct v; inversion Hc; subst; apply Hnil. }
  assert (tr1 = tr) as ->.
  { unfold contains_str in Hc. destruct v; inversion Hc; reflexivity. }
  destruct has.
  2:{ now exists ["Ошибка: Не удалось получить ответ от модели"]. }
  destruct (getitem_str v "choices" tr) as [tr2 [e|choices]] eqn:Hg.
  { exists []. cbn [fst]. rewrite <- (getitem_str_trace v "choices" tr), Hg. apply Hnil. }
  assert (tr2 = tr) as ->
    by (rewrite <- (getitem_str_trace v "choices" tr), Hg; reflexivity).
  destruct (len choices tr) as [tr3 [e|n]] eqn:Hl.
  { exists []. cbn [fst]. unfold len in Hl.
    destruct choices; inversion Hl; subst; apply Hnil. }
  assert (tr3 = tr) as ->
    by (unfold len in Hl; destruct choices; inversion Hl; reflexivity).
  unfold mret at 1, M_ret at 1.
  destruct (0 <? n).
  2:{ now exists ["Ошибка: Не удалось получить ответ от модели"]. }
  rewrite Hg.
  destruct (getitem_int choices 0 tr) as [tr4 [e|first]] eqn:Hi.
  { exists []. cbn [fst]. unfold getitem_int in Hi.
    destruct choices; try (inversion Hi; subst; apply Hnil).
    - destruct (seq_index (str_chars s) 0); inversion Hi; subst; apply Hnil.
    - destruct (seq_index l 0); inversion Hi; subst; apply Hnil. }
  assert (tr4 = tr) as ->.
  { unfold getitem_int in Hi. destruct choices; try (inversion Hi; reflexivity).
    - destruct (seq_index (str_chars s) 0); inversion Hi; reflexivity.
    - destruct (seq_index l 0); inversion Hi; reflexivity. }
  destruct (getitem_str first "message" tr) as [tr5 [e|message]] eqn:Hm.
  { exists []. cbn [fst]. rewrite <- (getitem_str_trace first "message" tr), Hm.
    apply Hnil. }
  assert (tr5 = tr) as ->
    by (rewrite <- (getitem_str_trace first "message" tr), Hm; reflexivity).
  destruct (getitem_str message "content" tr) as [tr6 [e|content]] eqn:Ht.
  { exists []. cbn [fst]. rewrite <- (getitem_str_trace message "content" tr), Ht.
    apply Hnil. }
  assert (tr6 = tr) as ->
    by (rewrite <- (getitem_str_trace message "content" tr), Ht; reflexivity).
  exists [nl +:+ str_repeat "=" 60; "Ваш ASCII котик:"; str_repeat "=" 60;
          str content; str_repeat "=" 60].
  unfold print, emit. cbn [fst map]. now rewrite <- !app_assoc.
Qed.

(** With a non-empty list under [choices], [report] goes on with its
    first element. *)
Lemma report_first_choice (rd : pydict) (first : pyval) (rest : list pyval)
    (tr : list event) :
  dict_get "choices" rd = Some (PList (first :: rest)) ->
  report (PDict rd) tr
  = (message ← getitem_str first "message";
     content ← getitem_str message "content";
     print (nl +:+ str_repeat "=" 60) ;;
     print "Ваш ASCII котик:" ;;
     print (str_repeat "=" 60) ;;
     print (str content) ;;
     print (str_repeat "=" 60)) tr.
Proof.
  intros Hc. unfold report.
  destruct rd as [|kv rd']; [discriminate Hc|].
  cbn [truthy]. unfold mbind at 1 2, M_bind at 1 2, contains_str, mret at 1, M_ret at 1.
  rewrite bool_decide_eq_true_2 by (rewrite Hc; eauto).
  unfold mbind at 1 2, M_bind at 1 2.
  unfold getitem_str at 1. rewrite Hc. unfold mret at 1, M_ret at 1, len.
  unfold mret at 1 2, M_ret at 1 2. cbv beta iota.
  assert (Hn : (0 <? Z.of_nat (length (first :: rest))) = true)
    by (apply Z.ltb_lt; cbn [length]; lia).
  rewrite Hn. unfold mbind at 1, M_bind at 1.
  unfold getitem_str at 1. rewrite Hc. unfold mret at 1, M_ret at 1.
  unfold mbind at 1, M_bind at 1, getitem_int.
  rewrite seq_index_0_head. cbn [head]. unfold mret at 1, M_ret at 1.
  reflexivity.
Qed.

End Script1Helpers.

Section MoreScript1.
Import Py Day01 Spec Examples MoreExamples.

(** [load_settings] never raises.  When the file is read it returns the
    settings and prints nothing.  When opening or parsing raises, it
    returns [None] after one line: the fixed line about the missing file
    for a [FileNotFoundError], and for any other exception the line that
    ends with the text of the exception. *)
Theorem load_settings_never_raises (w : world) (tr : list event) :
  (forall d, settings_toml w = inr d -> load_settings w tr = (tr, inr (PDict d)))
  /\ (forall e, settings_toml w = inl e -> is_FileNotFoundError e = true ->
        load_settings w tr
        = (tr ++ [Print "Ошибка: файл settings.toml не найден"], inr PNone))
  /\ (forall e, settings_toml w = inl e -> is_FileNotFoundError e = false ->
        load_settings w tr
        = (tr ++ [Print ("Ошибка чтения конфигурационного файла: " +:+ exc_msg e)],
           inr PNone))
  /\ exists (lines : list string) (v : pyval),
       load_settings w tr = (tr ++ map Print lines, inr v)
       /\ (length lines <= 1)%nat.
Proof.
  rewrite load_settings_run.
  destruct (settings_toml w) as [e|d].
  - repeat apply conj.
    + discriminate.
    + intros e' [= <-] ->. reflexivity.
    + intros e' [= <-] ->. reflexivity.
    + eexists [_], PNone. split; [reflexivity | cbn; lia].
  - repeat apply conj.
    + intros d' [= <-]. reflexivity.
    + discriminate.
    + discriminate.
    + exists [], (PDict d). split; [now rewrite app_nil_r | cbn; lia].
Qed.

(** A settings file that parses to no key at all is taken like a file
    that could not be loaded, but without any message: [main] prints its
    start-up line and returns, and nothing is posted. *)
Theorem empty_settings_end_silently (w : world) :
  settings_toml w = inr [] ->
  run (main w) = ([Print banner], inr tt).
Proof.
  intros H. unfold run, main. unfold mbind at 1 2, M_bind at 1 2. unfold print at 1, emit.
  now rewrite (load_settings_success _ _ _ H).
Qed.

Lemma empty_settings_end_silently_witness :
  run (main empty_settings_world) = ([Print banner], inr tt).
Proof. apply (empty_settings_end_silently empty_settings_world). reflexivity. Defined.

(** Settings that hold some keys but no [api_key] make [main] raise
    [KeyError] for that key, right after the start-up line: no message is
    printed and nothing is posted. *)
Theorem settings_without_api_key_raise (w : world) (d : pydict) :
  settings_toml w = inr d ->
  d <> [] ->
  dict_get "api_key" d = None ->
  run (main w) = ([Print banner], inl (Exc KeyError "'api_key'")).
Proof.
  intros H Hd Hk. unfold run, main. unfold mbind at 1 2, M_bind at 1 2.
  unfold print at 1, emit.
  rewrite (load_settings_success _ _ _ H).
  destruct d as [|kv d']; [congruence|]. cbn [truthy negb].
  unfold mbind at 1, M_bind at 1, getitem_str at 1. now rewrite Hk.
Qed.

Lemma settings_without_api_key_raise_witness :
  run (main missing_key_world) = ([Print banner], inl (Exc KeyError "'api_key'")).
Proof.
  apply (settings_without_api_key_raise missing_key_world
           [ ("base_url", PStr "https://api.example.com/v1");
             ("model", PStr "gpt-4o-mini"); ("max_tokens", PInt 1000);
             ("timeout", PInt 30) ]);
    [reflexivity | discriminate | reflexivity].
Defined.

(** When the settings have a usable [api_key] but lack one of model,
    max_tokens, base_url and timeout, [send_request] raises [KeyError]
    for a missing key before anything is posted (for base_url and timeout
    inside the [try], whose clauses do not name [KeyError]), and the
    exception leaves [main] after the two progress lines. *)
Theorem request_key_missing_raises (w : world) (d : pydict) (api_key : pyval) :
  settings_toml w = inr d ->
  dict_get "api_key" d = Some api_key ->
  eq_str api_key placeholder_api_key = false ->
  dict_get "model" d = None \/ dict_get "max_tokens" d = None
    \/ dict_get "base_url" d = None \/ dict_get "timeout" d = None ->
  exists k : string,
    k ∈ ["model"; "max_tokens"; "base_url"; "timeout"]
    /\ dict_get k d = None
    /\ (forall tr, send_request w (PDict d) create_llm_request tr
                   = (tr, inl (Exc KeyError (repr_str k))))
    /\ run (main w) = ([Print banner; Print sending], inl (Exc KeyError (repr_str k))).
Proof.
  intros Hs Ha Hp Hmiss.
  destruct (send_request_key_missing w d api_key Ha Hmiss) as (k & Hk & Hnone & Hsend).
  exists k. split; [exact Hk|]. split; [exact Hnone|]. split; [exact Hsend|].
  rewrite (main_reaches_request w d api_key Hs Ha Hp).
  unfold mbind, M_bind. now rewrite Hsend.
Qed.

Lemma request_key_missing_raises_witness :
  exists k : string,
    run (main no_timeout_world)
    = ([Print banner; Print sending], inl (Exc KeyError (repr_str k))).
Proof.
  destruct (request_key_missing_raises no_timeout_world
              [ ("api_key", PStr "sk-test");
                ("base_url", PStr "https://api.example.com/v1");
                ("model", PStr "gpt-4o-mini"); ("max_tokens", PInt 1000) ]
              (PStr "sk-test") eq_refl eq_refl eq_refl
              (or_intror (or_intror (or_intror eq_refl))))
    as (k & _ & _ & _ & Hrun).
  exists k. exact Hrun.
Defined.

(** Whether a response counts as a failure is decided by its status
    alone: for a status from 400 to 599 the transport step fails with the
    HTTP error, whose text gives the status, the kind of error, the reason
    and the URL, and the body is not looked at; for every other status
    (3xx included) the result is whatever decoding the body gives. *)
Theorem status_decides_error (r : Response) :
  transport_result (inr r)
  = if (400 <=? status_code r) && (status_code r <? 600) then
      inl (Exc RequestException
             (str_of_int (status_code r)
                +:+ (if status_code r <? 500 then " Client Error: " else " Server Error: ")
                +:+ reason r +:+ " for url: " +:+ url r))
    else json r.
Proof.
  unfold transport_result, run, raise_for_status, response_json, mbind, M_bind.
  destruct (400 <=? status_code r) eqn:H4; cbn [andb].
  - destruct (status_code r <? 500) eqn:H5.
    + assert (H6 : (status_code r <? 600) = true)
        by (apply Z.ltb_lt; apply Z.ltb_lt in H5; lia).
      rewrite H6.
      assert (Ht : truthy (PStr (str_of_int (status_code r) +:+ " Client Error: "
                 +:+ reason r +:+ " for url: " +:+ url r)) = true).
      { cbn [truthy]. apply negb_true_iff, String.eqb_neq, append_not_empty.
        discriminate. }
      rewrite Ht. reflexivity.
    + assert (H5' : (500 <=? status_code r) = true)
        by (apply Z.leb_le; apply Z.ltb_ge in H5; lia).
      rewrite H5'. cbn [andb].
      destruct (status_code r <? 600) eqn:H6.
      * assert (Ht : truthy (PStr (str_of_int (status_code r) +:+ " Server Error: "
                 +:+ reason r +:+ " for url: " +:+ url r)) = true).
        { cbn [truthy]. apply negb_true_iff, String.eqb_neq, append_not_empty.
          discriminate. }
        rewrite Ht. reflexivity.
      * cbn. now destruct (json r).
  - assert (H5 : (500 <=? status_code r) = false)
      by (apply Z.leb_gt; apply Z.leb_gt in H4; lia).
    rewrite H5. cbn. now destruct (json r).
Qed.

End MoreScript1.

Section MoreTransport.
Import Py Day01 Spec Examples MoreExamples.

Section Request.
Variables (w : world) (d : pydict) (api_key model max_tokens base_url timeout : pyval).
Hypothesis Hsettings : settings_toml w = inr d.
Hypothesis Hapi : dict_get "api_key" d = Some api_key.
Hypothesis Hmodel : dict_get "model" d = Some model.
Hypothesis Hmax : dict_get "max_tokens" d = Some max_tokens.
Hypothesis Hurl : dict_get "base_url" d = Some base_url.
Hypothesis Htimeout : dict_get "timeout" d = Some timeout.
Hypothesis Hkey : eq_str api_key placeholder_api_key = false.

(** The request that is posted under these settings. *)
Let url := str base_url +:+ "/chat/completions".
Let headers := request_headers api_key.
Let payload := request_payload model (PStr system_prompt) (PStr user_prompt) max_tokens.

(** With complete settings, [send_request] posts one request and one
    only, whatever the transport returns or raises: there is no second
    attempt.  The request is made of the settings alone: the URL is the
    base URL followed by /chat/completions, the key goes into the headers,
    and model and max_tokens go into the payload beside the two fixed
    messages.  The whole run of [main] posts this request and no other. *)
Theorem request_posted_once (tr : list event) :
  http_posts (fst (send_request w (PDict d) create_llm_request tr))
    = http_posts tr ++ [(url, headers, payload, timeout)]
  /\ http_posts (fst (run (main w))) = [(url, headers, payload, timeout)].
Proof.
  split.
  - apply send_request_posts; assumption.
  - rewrite (main_reaches_request w d api_key Hsettings Hapi Hkey).
    unfold mbind, M_bind.
    pose proof (send_request_posts w d api_key model max_tokens base_url timeout
                  [Print banner; Print sending] Hapi Hmodel Hmax Hurl Htimeout) as H.
    destruct (send_request w (PDict d) create_llm_request _) as [tr1 [e|v]].
    + exact H.
    + cbn [fst] in H.
      destruct (report_only_prints v tr1) as (lines & ->).
      rewrite http_posts_app, H, http_posts_prints. reflexivity.
Qed.

(** An exception of the transport step that is neither a
    [RequestException] nor a [JSONDecodeError] is not handled: it leaves
    [send_request] and [main] right after the request, and no message
    about it is printed. *)
Theorem unnamed_exception_leaves_main (e : exception) :
  transport_result (requests_post w url headers payload timeout) = inl e ->
  is_RequestException e = false ->
  is_JSONDecodeError e = false ->
  run (main w)
  = ([Print banner; Print sending; HttpPost url headers payload timeout], inl e).
Proof.
  intros He H1 H2. rewrite (main_reaches_request w d api_key Hsettings Hapi Hkey).
  unfold mbind, M_bind.
  rewrite (send_request_run w d api_key model max_tokens base_url timeout
             Hapi Hmodel Hmax Hurl Htimeout).
  fold url headers payload. now rewrite He, H1, H2.
Qed.

(** Which of the two messages a handled failure gets: the clause for
    [RequestException] comes first, so every exception of that class is
    reported as a failed request, also one that is a [JSONDecodeError] as
    well (as the one that [response.json()] of requests raises); the
    message about parsing JSON is printed only for a [JSONDecodeError]
    that is not a [RequestException]. *)
Theorem first_matching_clause_reports (e : exception) (tr : list event) :
  transport_result (requests_post w url headers payload timeout) = inl e ->
  is_RequestException e || is_JSONDecodeError e = true ->
  send_request w (PDict d) create_llm_request tr
  = (tr ++ [HttpPost url headers payload timeout;
            Print ((if is_RequestException e then "Ошибка запроса к API: "
                    else "Ошибка парсинга JSON ответа: ") +:+ exc_msg e)],
     inr PNone).
Proof.
  intros He Hc.
  rewrite (send_request_run w d api_key model max_tokens base_url timeout
             Hapi Hmodel Hmax Hurl Htimeout).
  fold url headers payload. rewrite He.
  destruct (is_RequestException e); [reflexivity|]. cbn in Hc. now rewrite Hc.
Qed.

End Request.

Lemma request_posted_once_witness :
  length (http_posts (fst (run (main timeout_world)))) = 1%nat.
Proof.
  rewrite (proj2 (request_posted_once timeout_world
                    (sample_settings (PStr "sk-test")) (PStr "sk-test")
                    (PStr "gpt-4o-mini") (PInt 1000)
                    (PStr "https://api.example.com/v1") (PInt 30)
                    eq_refl eq_refl eq_refl eq_refl eq_refl eq_refl eq_refl [])).
  reflexivity.
Defined.

Lemma unnamed_exception_leaves_main_witness :
  snd (run (main broken_transport_world))
  = inl (Exc TypeError "Object of type datetime is not JSON serializable").
Proof.
  rewrite (unnamed_exception_leaves_main broken_transport_world
             (sample_settings (PStr "sk-test")) (PStr "sk-test")
             (PStr "gpt-4o-mini") (PInt 1000)
             (PStr "https://api.example.com/v1") (PInt 30)
             eq_refl eq_refl eq_refl eq_refl eq_refl eq_refl eq_refl
             (Exc TypeError "Object of type datetime is not JSON serializable")
             eq_refl eq_refl eq_refl).
  reflexivity.
Defined.

Lemma first_matching_clause_reports_witness :
  printed (fst (send_request html_body_world (PDict (sample_settings (PStr "sk-test")))
                  create_llm_request []))
  = ["Ошибка запроса к API: Expecting value: line 1 column 1 (char 0)"].
Proof.
  rewrite (first_matching_clause_reports html_body_world
             (sample_settings (PStr "sk-test")) (PStr "sk-test")
             (PStr "gpt-4o-mini") (PInt 1000)
             (PStr "https://api.example.com/v1") (PInt 30)
             eq_refl eq_refl eq_refl eq_refl eq_refl
             (Exc RequestsJSONDecodeError "Expecting value: line 1 column 1 (char 0)")
             [] eq_refl eq_refl).
  reflexivity.
Defined.

(** In every run of [main], whatever the settings file and the transport
    are, at most one request is posted. *)
Theorem main_posts_at_most_once (w : world) :
  (length (http_posts (fst (run (main w)))) <= 1)%nat.
Proof.
  destruct (settings_toml w) as [e|d] eqn:Hs.
  - unfold run, main. unfold mbind at 1 2, M_bind at 1 2. unfold print at 1, emit.
    rewrite load_settings_run, Hs. cbn. lia.
  - destruct d as [|kv d'].
    { unfold run, main. unfold mbind at 1 2, M_bind at 1 2. unfold print at 1, emit.
      rewrite load_settings_run, Hs. cbn. lia. }
    destruct (dict_get "api_key" (kv :: d')) as [api_key|] eqn:Ha.
    2:{ unfold run, main. unfold mbind at 1 2, M_bind at 1 2. unfold print at 1, emit.
        rewrite load_settings_run, Hs. cbn [truthy negb].
        unfold mbind at 1, M_bind at 1, getitem_str at 1. rewrite Ha. cbn. lia. }
    destruct (eq_str api_key placeholder_api_key) eqn:Hp.
    { unfold run, main. unfold mbind at 1 2, M_bind at 1 2. unfold print at 1, emit.
      rewrite load_settings_run, Hs. cbn [truthy negb].
      unfold mbind at 1, M_bind at 1, getitem_str at 1. rewrite Ha.
      unfold mret at 1, M_ret at 1. rewrite Hp. cbn. lia. }
    rewrite (main_reaches_request w _ api_key Hs Ha Hp). unfold mbind, M_bind.
    destruct (dict_get "model" (kv :: d')) as [model|] eqn:Hmodel.
    2:{ destruct (send_request_key_missing w _ api_key Ha (or_introl Hmodel))
          as (k & _ & _ & ->). cbn. lia. }
    destruct (dict_get "max_tokens" (kv :: d')) as [mt|] eqn:Hmt.
    2:{ destruct (send_request_key_missing w _ api_key Ha (or_intror (or_introl Hmt)))
          as (k & _ & _ & ->). cbn. lia. }
    destruct (dict_get "base_url" (kv :: d')) as [bu|] eqn:Hbu.
    2:{ destruct (send_request_key_missing w _ api_key Ha
                    (or_intror (or_intror (or_introl Hbu))))
          as (k & _ & _ & ->). cbn. lia. }
    destruct (dict_get "timeout" (kv :: d')) as [to|] eqn:Hto.
    2:{ destruct (send_request_key_missing w _ api_key Ha
                    (or_intror (or_intror (or_intror Hto))))
          as (k & _ & _ & ->). cbn. lia. }
    pose proof (send_request_posts w _ api_key model mt bu to
                  [Print banner; Print sending] Ha Hmodel Hmt Hbu Hto) as H.
    destruct (send_request w (PDict (kv :: d')) create_llm_request _) as [tr1 [e|v]].
    + cbn [fst] in *. rewrite H. cbn. lia.
    + cbn [fst] in H.
      destruct (report_only_prints v tr1) as (lines & ->).
      rewrite http_posts_app, H, http_posts_prints. cbn. lia.
Qed.

End MoreTransport.

Section MoreReport.
Import Py Day01 Spec.

(** Of a response with a non-empty list of choices, [main] reads the
    first choice and nothing else: two responses whose lists start with
    the same choice are reported alike, whatever their other choices and
    their other keys. *)
Theorem report_reads_first_choice_only
    (rd rd' : pydict) (first : pyval) (rest rest' : list pyval) (tr : list event) :
  dict_get "choices" rd = Some (PList (first :: rest)) ->
  dict_get "choices" rd' = Some (PList (first :: rest')) ->
  report (PDict rd) tr = report (PDict rd') tr.
Proof.
  intros H H'.
  now rewrite (report_first_choice rd first rest tr H),
    (report_first_choice rd' first rest' tr H').
Qed.

Lemma report_reads_first_choice_only_witness :
  report (PDict [ ("id", PStr "cmpl-1");
                  ("choices", PList [ PDict [("message", PDict [("content", PStr "=^.^=")])];
                                      PDict [("message", PDict [("content", PStr "woof")])] ]) ])
         []
  = report (PDict [ ("choices",
                     PList [PDict [("message", PDict [("content", PStr "=^.^=")])]]) ]) [].
Proof.
  apply (report_reads_first_choice_only _ _
           (PDict [("message", PDict [("content", PStr "=^.^=")])])
           [PDict [("message", PDict [("content", PStr "woof")])]] []);
    reflexivity.
Defined.

(** The check before the extraction covers the list of choices only: when
    the first choice has no [message], or its message has no [content],
    the subscript raises [KeyError] for that key, and nothing is
    printed. *)
Theorem report_missing_field_raises
    (rd fd : pydict) (rest : list pyval) (tr : list event) :
  dict_get "choices" rd = Some (PList (PDict fd :: rest)) ->
  (dict_get "message" fd = None ->
   report (PDict rd) tr = (tr, inl (Exc KeyError "'message'")))
  /\ (forall md : pydict,
        dict_get "message" fd = Some (PDict md) ->
        dict_get "content" md = None ->
        report (PDict rd) tr = (tr, inl (Exc KeyError "'content'"))).
Proof.
  intros Hc. rewrite (report_first_choice rd (PDict fd) rest tr Hc).
  unfold mbind, M_bind, getitem_str. split.
  - intros ->. reflexivity.
  - intros md Hm Ht. rewrite Hm. unfold mret, M_ret. cbv beta iota.
    rewrite Ht. reflexivity.
Qed.

Lemma report_missing_field_raises_witness :
  report (PDict [("choices", PList [PDict [("text", PStr "meow")]])]) []
  = ([], inl (Exc KeyError "'message'")).
Proof.
  apply (proj1 (report_missing_field_raises
                  [("choices", PList [PDict [("text", PStr "meow")]])]
                  [("text", PStr "meow")] [] [] eq_refl)).
  reflexivity.
Defined.

(** A decoded body that is falsy ([None], [False], zero, an empty string,
    list or dict) is reported by the same line as a request that failed.
    A body that is a truthy scalar (a non-zero number or [True]) makes
    the test for the key choices raise [TypeError], which nothing
    handles. *)
Theorem report_on_scalars (v : pyval) (tr : list event) :
  (truthy v = false ->
   report v tr = (tr ++ [Print "Не удалось получить ответ от модели"], inr tt))
  /\ (truthy v = true ->
      match v with PNone | PBool _ | PInt _ | PFloat _ => True | _ => False end ->
      report v tr
      = (tr, inl (Exc TypeError
                    ("argument of type '" +:+ type_name v +:+ "' is not iterable")))).
Proof.
  unfold report. split; intros ->; [reflexivity|].
  destruct v; intros []; reflexivity.
Qed.

Lemma report_on_scalars_witness :
  report (PDict []) [] = ([Print "Не удалось получить ответ от модели"], inr tt)
  /\ report (PInt 5) []
     = ([], inl (Exc TypeError "argument of type 'int' is not iterable")).
Proof.
  split.
  - apply (proj1 (report_on_scalars (PDict []) [])). reflexivity.
  - apply (proj2 (report_on_scalars (PInt 5) [])); [reflexivity | exact I].
Defined.

End MoreReport.
